(** * giga-open-cost-model: the two workspace scripts

    A shallow embedding of [bin/create_cellular_distance_cache] (the cache
    builder) and of the school fetch script that follows it in the same
    source file, together with the parts of the [giga] package they call.

    Python values are modelled as the scripts use them: [int] as [Z],
    [float] as IEEE binary64 ([PrimFloat.float], so [math.inf] is
    [infinity]), [str] as [string], dictionaries as [gmap].  Exceptions are
    an inductive type; a script is a function from the world (files, logger,
    progress channel) to an outcome and a new world, so that what was
    written before an exception stays visible. *)

From Stdlib Require Import ZArith Uint63 PrimFloat FloatOps SpecFloat Ascii String.
From stdpp Require Import base option list strings gmap pretty.

Local Open Scope string_scope.
Local Open Scope Z_scope.

(** ** Exceptions, outcomes and the world *)

Inductive exn : Type :=
| SystemExit (code : Z)
| FileNotFoundError (path : string)
| AssertionError (msg : string)
| KeyError (key : string)
| ValueError (msg : string)
| TypeError (msg : string)
| OverflowError (msg : string)
| ConfigurationError (msg : string)
| CollaboratorError (msg : string).

Inductive Result (A : Type) : Type :=
| Ok (a : A)
| Raise (e : exn).
Arguments Ok {A} a.
Arguments Raise {A} e.

Definition rbind {A B} (r : Result A) (k : A → Result B) : Result B :=
  match r with
  | Ok a => k a
  | Raise e => Raise e
  end.

Inductive level : Type := INFO | WARNING.

(** [files] maps a path to the text stored there, [dirs] is the set of
    directories created so far, [log] is what [LOGGER] received and
    [progress] is what the progress bar displayed, oldest first. *)
Record World : Type := mkWorld {
  files : gmap string string;
  dirs : gset string;
  log : list (level * string);
  progress : list nat
}.

Definition Py (A : Type) : Type := World → Result A * World.

Definition ret {A} (a : A) : Py A := λ w, (Ok a, w).
Definition raise {A} (e : exn) : Py A := λ w, (Raise e, w).
Definition lift {A} (r : Result A) : Py A := λ w, (r, w).

Definition bind {A B} (m : Py A) (k : A → Py B) : Py B :=
  λ w, match m w with
       | (Ok a, w') => k a w'
       | (Raise e, w') => (Raise e, w')
       end.

Notation "'let*' x ':=' m 'in' k" := (bind m (λ x, k))
  (at level 10, x name, m at level 100, k at level 200, only parsing).
Notation "m1 ';;' m2" := (bind m1 (λ _, m2))
  (at level 100, m2 at level 200, right associativity, only parsing).

(** [try: m except FileNotFoundError: h] *)
Definition try_except_FileNotFoundError {A} (m : Py A) (h : Py A) : Py A :=
  λ w, match m w with
       | (Raise (FileNotFoundError _), w') => h w'
       | out => out
       end.

Definition LOGGER_info (msg : string) : Py unit :=
  λ w, (Ok tt, mkWorld (files w) (dirs w) (log w ++ [(INFO, msg)]) (progress w)).
Definition LOGGER_warning (msg : string) : Py unit :=
  λ w, (Ok tt, mkWorld (files w) (dirs w) (log w ++ [(WARNING, msg)]) (progress w)).

Definition report_progress (events : list nat) : Py unit :=
  λ w, (Ok tt, mkWorld (files w) (dirs w) (log w) (progress w ++ events)).

Definition write_file (path text : string) : Py unit :=
  λ w, (Ok tt, mkWorld (<[path := text]> (files w)) (dirs w) (log w) (progress w)).

Definition read_file (path : string) : Py string :=
  λ w, match files w !! path with
       | Some text => (Ok text, w)
       | None => (Raise (FileNotFoundError path), w)
       end.

(** ** Python built-ins used by the scripts *)

Fixpoint last_char (s : string) : option ascii :=
  match s with
  | EmptyString => None
  | String c EmptyString => Some c
  | String _ s' => last_char s'
  end.

Definition starts_with_char (c : ascii) (s : string) : bool :=
  match s with
  | String d _ => Ascii.eqb c d
  | EmptyString => false
  end.

(** [os.path.join a b] for two components (POSIX). *)
Definition os_path_join (a b : string) : string :=
  if starts_with_char "/" b then b
  else match last_char a with
       | None => b
       | Some c => if Ascii.eqb c "/" then a ++ b else a ++ "/" ++ b
       end.

Definition is_digit (c : ascii) : bool :=
  (48 <=? nat_of_ascii c)%nat && (nat_of_ascii c <=? 57)%nat.

Definition digit_value (c : ascii) : Z := Z.of_nat (nat_of_ascii c) - 48.

Definition is_space (c : ascii) : bool :=
  let n := nat_of_ascii c in
  (n =? 32)%nat || ((9 <=? n)%nat && (n <=? 13)%nat).

(** The digits of a decimal literal: single underscores are allowed between
    digits only. *)
Fixpoint parse_digits (acc : Z) (after_digit : bool) (s : list ascii) : option Z :=
  match s with
  | [] => if after_digit then Some acc else None
  | c :: s' =>
      if is_digit c then parse_digits (10 * acc + digit_value c) true s'
      else if Ascii.eqb c "_" && after_digit then parse_digits acc false s'
      else None
  end.

Fixpoint drop_spaces (s : list ascii) : list ascii :=
  match s with
  | c :: s' => if is_space c then drop_spaces s' else s
  | [] => []
  end.

Definition strip (s : list ascii) : list ascii :=
  rev (drop_spaces (rev (drop_spaces s))).

(** [int(s)] for a string [s], base ten, ASCII. *)
Definition int_of_str (s : string) : option Z :=
  match strip (list_ascii_of_string s) with
  | c :: s' =>
      if Ascii.eqb c "-" then Z.opp <$> parse_digits 0 false s'
      else if Ascii.eqb c "+" then parse_digits 0 false s'
      else parse_digits 0 false (c :: s')
  | [] => None
  end.

(** [int(x)] for a float [x]: truncation towards zero. *)
Definition int_of_float (x : float) : Result Z :=
  match Prim2SF x with
  | S754_zero _ => Ok 0
  | S754_infinity _ =>
      Raise (OverflowError "cannot convert float infinity to integer")
  | S754_nan => Raise (ValueError "cannot convert float NaN to integer")
  | S754_finite sign m e =>
      let magnitude := if 0 <=? e then Z.pos m * 2 ^ e else Z.pos m / 2 ^ (- e) in
      Ok (if sign then - magnitude else magnitude)
  end.

(** How [argparse] classifies a command-line token: it looks like an option
    when it starts with a dash, is longer than the dash alone, is not a
    negative number and holds no space. *)
Fixpoint all_digits (s : list ascii) : bool :=
  match s with
  | [] => true
  | c :: s' => is_digit c && all_digits s'
  end.

Fixpoint negative_number_tail (s : list ascii) : bool :=
  match s with
  | [] => false
  | c :: s' =>
      if Ascii.eqb c "." then (match s' with [] => false | _ => all_digits s' end)
      else if is_digit c then (match s' with [] => true | _ => negative_number_tail s' end)
      else false
  end.

Definition has_space (s : list ascii) : bool :=
  existsb (Ascii.eqb " ") s.

Definition option_like (tok : string) : bool :=
  match list_ascii_of_string tok with
  | c :: ((_ :: _) as rest) =>
      Ascii.eqb c "-" && negb (negative_number_tail rest) && negb (has_space rest)
  | _ => false
  end.

Definition mem (tok : string) (names : list string) : bool :=
  existsb (String.eqb tok) names.

(** ** Data model of the distance core *)

(** Modelled from the spec: the schema classes of [giga.schemas]
    (coordinates, schools, cell towers, distances) are not part of the
    sources at hand; this record and the three after it follow section 3
    (data model) and section 6 (tabular input: identifier, latitude,
    longitude and, for schools, the already-connected flag). *)
Record Coordinate : Type := mkCoordinate {
  coordinate_id : string;
  lat : float;
  lon : float
}.

Record GigaSchool : Type := mkGigaSchool {
  giga_id_school : string;
  school_lat : float;
  school_lon : float;
  connected : bool
}.

Record CellTower : Type := mkCellTower {
  tower_id : string;
  tower_lat : float;
  tower_lon : float
}.

Record NeighborMatch : Type := mkNeighborMatch {
  source_id : string;
  target_id : string;
  distance_meters : float
}.

Definition NeighborList : Type := list NeighborMatch.

(** [GigaSchoolTable.to_coordinates] and [CellTowerTable.to_coordinates] *)
Definition schools_to_coordinates (schools : list GigaSchool) : list Coordinate :=
  map (λ s, mkCoordinate (giga_id_school s) (school_lat s) (school_lon s)) schools.

Definition towers_to_coordinates (towers : list CellTower) : list Coordinate :=
  map (λ t, mkCoordinate (tower_id t) (tower_lat t) (tower_lon t)) towers.

(** The configuration handed to [VectorizedDistanceModel(...)]. *)
Record VectorizedDistanceModel : Type := mkModel {
  progress_bar : bool;
  model_n_nearest_neighbors : Z;
  maximum_distance : float
}.

(** A JSON document, as the cache is persisted. *)
#[local] Unset Elimination Schemes.
Inductive json : Type :=
| JNumber (x : float)
| JString (s : string)
| JObject (fields : list (string * json)).
#[local] Set Elimination Schemes.

(** What the cache builder takes from the Python runtime and from the
    table schemas: the float syntax, the two table readers (from the text
    of a file) and the JSON printer. *)
Class Runtime : Type := {
  float_of_str : string → option float;
  CellTowerTable_parse : string → Result (list CellTower);
  GigaSchoolTable_parse : string → Result (list GigaSchool);
  json_dumps : json → string
}.

(** The core the cache builder drives: the distance engine and the
    single-lookup cache.  [run_chunks] returns the neighbor lists together
    with what it reported on the progress channel. *)
Class Core : Type := {
  run_chunks :
    VectorizedDistanceModel → list Coordinate * list Coordinate → Z →
    Result (gmap string NeighborList) * list nat;
  from_distances : gmap string NeighborList → gmap string NeighborMatch;
  cache_json : gmap string NeighborMatch → json
}.

(** ** Reading the command line

    [argparse] leaves with status 2 on a command line it cannot read. *)

Definition usage_error {A} : Result A := Raise (SystemExit 2).

(** The value that follows a value-taking option. *)
Definition argument (rest : list string) : Result string :=
  match rest with
  | v :: _ => if option_like v then usage_error else Ok v
  | [] => usage_error
  end.

Definition as_int (v : string) : Result Z :=
  match int_of_str v with Some n => Ok n | None => usage_error end.

(** ** The cache builder, [bin/create_cellular_distance_cache] *)

Module CacheBuilder.

Record Args : Type := mkArgs {
  workspace_directory : string;
  include_connected : bool;
  n_chunks : Z;
  n_nearest_neighbors : Z;
  maximum_distance_meters : float;
  file_suffix : string
}.

(** The namespace while the command line is read; only the required
    argument has no default. *)
Record Namespace : Type := mkNamespace {
  ns_workspace_directory : option string;
  ns_include_connected : bool;
  ns_n_chunks : Z;
  ns_n_nearest_neighbors : Z;
  ns_maximum_distance_meters : float;
  ns_file_suffix : string
}.


(** The [default=] of each [add_argument] call. *)
Definition defaults : Namespace :=
  mkNamespace None false 1000 20 infinity "_cache".

Definition as_float `{Runtime} (v : string) : Result float :=
  match float_of_str v with Some x => Ok x | None => usage_error end.

(** One step of [parse_args]: the option named by [tok] updates the
    namespace from the token after it.  The model reads command lines in
    which every option is spelt in full and its value is the next token. *)
Definition store `{Runtime} (tok : string) (rest : list string)
    (ns : Namespace) : Result Namespace :=
  if mem tok ["--workspace-directory"; "-w"] then
    rbind (argument rest) (λ v,
      Ok (mkNamespace (Some v) (ns_include_connected ns) (ns_n_chunks ns)
            (ns_n_nearest_neighbors ns) (ns_maximum_distance_meters ns)
            (ns_file_suffix ns)))
  else if mem tok ["--n-chunks"; "-nc"] then
    rbind (argument rest) (λ v, rbind (as_int v) (λ n,
      Ok (mkNamespace (ns_workspace_directory ns) (ns_include_connected ns) n
            (ns_n_nearest_neighbors ns) (ns_maximum_distance_meters ns)
            (ns_file_suffix ns))))
  else if mem tok ["--n-nearest-neighbors"; "-nn"] then
    rbind (argument rest) (λ v, rbind (as_int v) (λ n,
      Ok (mkNamespace (ns_workspace_directory ns) (ns_include_connected ns)
            (ns_n_chunks ns) n (ns_maximum_distance_meters ns)
            (ns_file_suffix ns))))
  else if mem tok ["--maximum-distance-meters"; "-md"] then
    rbind (argument rest) (λ v, rbind (as_float v) (λ x,
      Ok (mkNamespace (ns_workspace_directory ns) (ns_include_connected ns)
            (ns_n_chunks ns) (ns_n_nearest_neighbors ns) x (ns_file_suffix ns))))
  else if mem tok ["--file-suffix"; "-fs"] then
    rbind (argument rest) (λ v,
      Ok (mkNamespace (ns_workspace_directory ns) (ns_include_connected ns)
            (ns_n_chunks ns) (ns_n_nearest_neighbors ns)
            (ns_maximum_distance_meters ns) v))
  else usage_error.

Fixpoint consume `{Runtime} (argv : list string) (ns : Namespace)
    : Result Namespace :=
  match argv with
  | [] => Ok ns
  | tok :: rest =>
      if mem tok ["-h"; "--help"] then Raise (SystemExit 0)
      else if mem tok ["--include-connected"; "-ic"] then
        consume rest
          (mkNamespace (ns_workspace_directory ns) true (ns_n_chunks ns)
             (ns_n_nearest_neighbors ns) (ns_maximum_distance_meters ns)
             (ns_file_suffix ns))
      else
        match store tok rest ns with
        | Ok ns' => match rest with _ :: rest' => consume rest' ns' | [] => usage_error end
        | Raise e => Raise e
        end
  end.

Definition parse_args `{Runtime} (argv : list string) : Result Args :=
  rbind (consume argv defaults) (λ ns,
    match ns_workspace_directory ns with
    | Some w =>
        Ok (mkArgs w (ns_include_connected ns) (ns_n_chunks ns)
              (ns_n_nearest_neighbors ns) (ns_maximum_distance_meters ns)
              (ns_file_suffix ns))
    | None => usage_error
    end).

(** [data_store.is_file] and [data_store.open(path, "a").close()] *)
Definition data_store_is_file (path : string) : Py bool :=
  λ w, (Ok (bool_decide (is_Some (files w !! path))), w).

Definition data_store_open_append_close (path : string) : Py unit :=
  λ w, match files w !! path with
       | Some _ => (Ok tt, w)
       | None => write_file path EmptyString w
       end.

(** [Table.from_csv(path)] *)
Definition from_csv {A} (parse : string → Result A) (path : string) : Py A :=
  let* text := read_file path in lift (parse text).

(** Lines 79-85: consider only schools that are not already connected,
    unless configured otherwise. *)
Definition exclude_connected (args : Args) (schools : list GigaSchool)
    : Py (list GigaSchool) :=
  if negb (include_connected args) then
    LOGGER_info "Removing schools that are already connected from school set";;
    ret (filter (λ s, negb (connected s)) schools)
  else ret schools.

(** Lines 87-91. *)
Definition model_of (args : Args) : VectorizedDistanceModel :=
  mkModel true (n_nearest_neighbors args) (maximum_distance_meters args).

(** Lines 87-99: run the engine and persist the single-lookup cache. *)
Definition build_cache `{Runtime} `{Core} (args : Args)
    (school_coords : list GigaSchool) (cellular_coordinates : list CellTower)
    : Py unit :=
  let outcome :=
    run_chunks (model_of args)
      (schools_to_coordinates school_coords,
       towers_to_coordinates cellular_coordinates)
      (n_chunks args) in
  report_progress (snd outcome);;
  let* dists_cellular := lift (fst outcome) in
  let cellular_cache := from_distances dists_cellular in
  write_file
    (os_path_join (workspace_directory args)
       ("cellular" ++ file_suffix args ++ ".json"))
    (json_dumps (cache_json cellular_cache)).

Definition run `{Runtime} `{Core} (args : Args) : Py unit :=
  let cellular := os_path_join (workspace_directory args) "cellular.csv" in
  let* present := data_store_is_file cellular in
  if negb present then
    LOGGER_warning
      ("Cell tower file not found in " ++ workspace_directory args
         ++ ", creating empty file.");;
    data_store_open_append_close cellular;;
    ret tt
  else
    let* cellular_coordinates := from_csv CellTowerTable_parse cellular in
    let* school_coords :=
      from_csv GigaSchoolTable_parse
        (os_path_join (workspace_directory args) "schools.csv") in
    let* school_coords := exclude_connected args school_coords in
    build_cache args school_coords cellular_coordinates.

Definition main `{Runtime} `{Core} (argv : list string) : Py unit :=
  let* args := lift (parse_args argv) in
  run args.

End CacheBuilder.

(** ** The distance engine and the single-lookup cache

    [VectorizedDistanceModel] and [SingleLookupDistanceCache] are imported
    by the cache builder from the [giga] package, which is not part of the
    sources at hand.  The definitions of this module follow section 4.1
    (Distance Engine) and section 4.2 (Distance Cache) of the
    specification.  The geodesic formula is left open there and is a
    parameter here. *)

Module DistanceEngine.

Fixpoint insert_by {A} (le : A → A → bool) (x : A) (l : list A) : list A :=
  match l with
  | [] => [x]
  | y :: l' => if le x y then x :: l else y :: insert_by le x l'
  end.

Definition sort_by {A} (le : A → A → bool) (l : list A) : list A :=
  foldr (insert_by le) [] l.

(** Ascending by distance, ties broken by target identifier ascending. *)
Definition nearer (a b : NeighborMatch) : bool :=
  PrimFloat.ltb (distance_meters a) (distance_meters b)
  || (PrimFloat.eqb (distance_meters a) (distance_meters b)
      && String.leb (target_id a) (target_id b)).

Section Engine.
Variable distance : Coordinate → Coordinate → float.

(** Modelled from the spec: the per-query computation of
    [VectorizedDistanceModel], which is not in the sources (section 4.1):
    the distance to every reference, filtered to the maximum distance,
    sorted, cut to the K nearest. *)
Definition neighbors (model : VectorizedDistanceModel)
    (references : list Coordinate) (q : Coordinate) : NeighborList :=
  take (Z.to_nat (model_n_nearest_neighbors model))
    (sort_by nearer
       (List.filter
          (λ m, PrimFloat.leb (distance_meters m) (maximum_distance model))
          (map (λ r, mkNeighborMatch (coordinate_id q) (coordinate_id r)
                       (distance q r))
             references))).

Definition record_neighbors (model : VectorizedDistanceModel)
    (references : list Coordinate) (acc : gmap string NeighborList)
    (q : Coordinate) : gmap string NeighborList :=
  <[coordinate_id q := neighbors model references q]> acc.

(** The mapping computed for one chunk of queries. *)
Definition compute_chunk (model : VectorizedDistanceModel)
    (references : list Coordinate) (chunk : list Coordinate)
    : gmap string NeighborList :=
  foldl (record_neighbors model references) ∅ chunk.

(** [k] partitions of [size] queries each, then the final partition, which
    absorbs the remainder. *)
Fixpoint partition (k size : nat) (queries : list Coordinate)
    : list (list Coordinate) :=
  match k with
  | O => [queries]
  | S k' => take size queries :: partition k' size (drop size queries)
  end.

Definition chunks (n_chunks : Z) (queries : list Coordinate)
    : list (list Coordinate) :=
  let n := Z.to_nat n_chunks in
  partition (n - 1) (length queries / n)%nat queries.

(** The final merge of the per-chunk mappings: a later chunk's entry
    replaces an earlier one for the same identifier. *)
Definition merge_chunks (results : list (gmap string NeighborList))
    : gmap string NeighborList :=
  foldl (λ acc result, result ∪ acc) ∅ results.

(** The contract of the engine: at least one neighbor, a non-negative
    maximum distance, at least one chunk. *)
Definition valid_model (model : VectorizedDistanceModel) : bool :=
  (1 <=? model_n_nearest_neighbors model)
  && PrimFloat.leb 0 (maximum_distance model).

Definition valid (model : VectorizedDistanceModel) (n_chunks : Z) : bool :=
  valid_model model && (1 <=? n_chunks).

(** Modelled from the spec: [VectorizedDistanceModel.run_chunks], which is
    not in the sources (section 4.1).  A configuration outside the contract
    is rejected; otherwise the queries are split into chunks, each chunk is
    computed on its own and the mappings are merged.  The progress channel
    observes the completion of each chunk, by its number, when the progress
    bar is on. *)
Definition run_chunks (model : VectorizedDistanceModel)
    (data : list Coordinate * list Coordinate) (n_chunks : Z)
    : Result (gmap string NeighborList) * list nat :=
  if valid model n_chunks then
    let parts := chunks n_chunks (fst data) in
    (Ok (merge_chunks (map (compute_chunk model (snd data)) parts)),
     if progress_bar model then seq 1 (length parts) else [])
  else
    (Raise (ConfigurationError "invalid distance model configuration"), []).

(** The engine run on the whole query collection at once. *)
Definition compute (model : VectorizedDistanceModel)
    (queries references : list Coordinate) : gmap string NeighborList :=
  compute_chunk model references queries.
End Engine.

(** Modelled from the spec: [SingleLookupDistanceCache.from_distances],
    which is not in the sources (section 4.2, [build_single]): keep only the
    first (nearest) entry per source; a source with an empty list is
    omitted. *)
Definition build_single (matches : gmap string NeighborList)
    : gmap string NeighborMatch :=
  omap head matches.

(** One source identifier with its [target_id] and [distance_meters]. *)
Definition entry_json (entry : string * NeighborMatch) : string * json :=
  (fst entry,
   JObject [("target_id", JString (target_id (snd entry)));
            ("distance_meters", JNumber (distance_meters (snd entry)))]).

(** Modelled from the spec: the document written by
    [SingleLookupDistanceCache.to_json], which is not in the sources
    (sections 4.2 and 6): one object per source identifier, keys sorted. *)
Definition single_cache_json (cache : gmap string NeighborMatch) : json :=
  JObject
    (map entry_json
       (sort_by (λ a b, String.leb (fst a) (fst b)) (map_to_list cache))).

Definition core (distance : Coordinate → Coordinate → float) : Core :=
  Build_Core (run_chunks distance) build_single single_cache_json.

End DistanceEngine.

(** ** Data frames

    The part of [pandas] the fetch script uses.  A frame is held column by
    column, with its row labels aside; a cell is a Python scalar.  Column
    labels are looked up first match first. *)

Inductive Cell : Type :=
| CNone
| CInt (n : Z)
| CFloat (x : float)
| CStr (s : string)
| CBool (b : bool).

Record DataFrame : Type := mkFrame {
  index_name : option string;
  index : list Cell;
  columns : list (string * list Cell)
}.

Definition isna (x : Cell) : bool :=
  match x with
  | CNone => true
  | CFloat x => PrimFloat.is_nan x
  | _ => false
  end.

Definition cell_eqb (a b : Cell) : bool :=
  match a, b with
  | CNone, CNone => true
  | CInt m, CInt n => m =? n
  | CFloat x, CFloat y => PrimFloat.eqb x y
  | CStr s, CStr t => String.eqb s t
  | CBool b, CBool c => Bool.eqb b c
  | _, _ => false
  end.

Definition keys (df : DataFrame) : list string := map fst (columns df).

Fixpoint column (name : string) (cols : list (string * list Cell))
    : option (list Cell) :=
  match cols with
  | [] => None
  | (c, values) :: cols' =>
      if String.eqb c name then Some values else column name cols'
  end.

(** [df[name]] *)
Definition getitem (name : string) (df : DataFrame) : Result (list Cell) :=
  match column name (columns df) with
  | Some values => Ok values
  | None => Raise (KeyError name)
  end.

(** [df[[name; ...]]] *)
Fixpoint select (names : list string) (cols : list (string * list Cell))
    : Result (list (string * list Cell)) :=
  match names with
  | [] => Ok []
  | name :: names' =>
      match column name cols with
      | Some values =>
          rbind (select names' cols) (λ rest, Ok ((name, values) :: rest))
      | None => Raise (KeyError name)
      end
  end.

Definition getitem_list (names : list string) (df : DataFrame) : Result DataFrame :=
  rbind (select names (columns df)) (λ cols,
    Ok (mkFrame (index_name df) (index df) cols)).

Fixpoint replace_column (name : string) (values : list Cell)
    (cols : list (string * list Cell)) : list (string * list Cell) :=
  match cols with
  | [] => [(name, values)]
  | (c, old) :: cols' =>
      if String.eqb c name then (c, values) :: cols'
      else (c, old) :: replace_column name values cols'
  end.

(** [df[name] = values]: in place when the column exists, appended
    otherwise. *)
Definition setitem (name : string) (values : list Cell) (df : DataFrame)
    : DataFrame :=
  mkFrame (index_name df) (index df) (replace_column name values (columns df)).

Fixpoint renamed (mapping : list (string * string)) (c : string) : string :=
  match mapping with
  | [] => c
  | (old, new) :: mapping' => if String.eqb old c then new else renamed mapping' c
  end.

(** [df.rename(columns=mapping)] *)
Definition rename (mapping : list (string * string)) (df : DataFrame) : DataFrame :=
  mkFrame (index_name df) (index df)
    (map (λ col, (renamed mapping (fst col), snd col)) (columns df)).

(** [pd.DataFrame(columns=names)] *)
Definition empty_frame (names : list string) : DataFrame :=
  mkFrame None [] (map (λ c, (c, [])) names).

Fixpoint drop_column (name : string) (cols : list (string * list Cell))
    : list (string * list Cell) :=
  match cols with
  | [] => []
  | (c, values) :: cols' =>
      if String.eqb c name then cols' else (c, values) :: drop_column name cols'
  end.

(** [df.set_index(name)] *)
Definition set_index (name : string) (df : DataFrame) : Result DataFrame :=
  match column name (columns df) with
  | Some labels => Ok (mkFrame (Some name) labels (drop_column name (columns df)))
  | None => Raise (KeyError name)
  end.

(** [df.reset_index()] *)
Definition reset_index (df : DataFrame) : Result DataFrame :=
  let name := default "index" (index_name df) in
  if mem name (keys df) then
    Raise (ValueError ("cannot insert " ++ name ++ ", already exists"))
  else
    Ok (mkFrame None
          (map (λ i, CInt (Z.of_nat i)) (seq 0 (length (index df))))
          ((name, index df) :: columns df)).

Fixpoint position (k : Cell) (labels : list Cell) : option nat :=
  match labels with
  | [] => None
  | l :: labels' =>
      if cell_eqb l k then Some O else S <$> position k labels'
  end.

Fixpoint has_duplicates (labels : list Cell) : bool :=
  match labels with
  | [] => false
  | l :: labels' => existsb (cell_eqb l) labels' || has_duplicates labels'
  end.

Fixpoint same_labels (a b : list Cell) : bool :=
  match a, b with
  | [], [] => true
  | x :: a', y :: b' => cell_eqb x y && same_labels a' b'
  | _, _ => false
  end.

(** [other.reindex(labels)[c]]: the value of column [values] of [other] at
    each of [labels], NaN where [other] has no such row. *)
Definition reindexed (other_index : list Cell) (values : list Cell)
    (labels : list Cell) : list Cell :=
  map (λ k, match position k other_index with
            | Some j => default (CFloat nan) (values !! j)
            | None => CFloat nan
            end) labels.

Definition update_column (df other : DataFrame) (col : string * list Cell)
    : string * list Cell :=
  match column (fst col) (columns other) with
  | Some values =>
      (fst col,
       zip_with (λ this that, if isna that then this else that)
         (snd col) (reindexed (index other) values (index df)))
  | None => col
  end.

(** [df.update(other)]: align [other] on the row labels of [df] and
    overwrite, in the columns both have, with its values that are not NA. *)
Definition update (df other : DataFrame) : Result DataFrame :=
  if has_duplicates (index other) && negb (same_labels (index other) (index df))
  then Raise (ValueError "cannot reindex on an axis with duplicate labels")
  else Ok (mkFrame (index_name df) (index df)
             (map (update_column df other) (columns df))).

(** [series.apply(f)] for an [f] that may raise. *)
Fixpoint apply (f : Cell → Result Cell) (values : list Cell)
    : Result (list Cell) :=
  match values with
  | [] => Ok []
  | x :: values' =>
      rbind (f x) (λ y, rbind (apply f values') (λ ys, Ok (y :: ys)))
  end.

(** [int(x)] on a cell. *)
Definition int (x : Cell) : Result Z :=
  match x with
  | CNone =>
      Raise (TypeError "int() argument must be a string or a number, not 'NoneType'")
  | CInt n => Ok n
  | CFloat x => int_of_float x
  | CStr s =>
      match int_of_str s with
      | Some n => Ok n
      | None => Raise (ValueError ("invalid literal for int() with base 10: " ++ s))
      end
  | CBool b => Ok (if b then 1 else 0)
  end.

(** [s.title()], ASCII *)
Definition is_lower (c : ascii) : bool :=
  (97 <=? nat_of_ascii c)%nat && (nat_of_ascii c <=? 122)%nat.
Definition is_upper (c : ascii) : bool :=
  (65 <=? nat_of_ascii c)%nat && (nat_of_ascii c <=? 90)%nat.

Fixpoint title_from (after_letter : bool) (s : string) : string :=
  match s with
  | EmptyString => EmptyString
  | String c s' =>
      if is_lower c then
        String (if after_letter then c else ascii_of_nat (nat_of_ascii c - 32))
          (title_from true s')
      else if is_upper c then
        String (if after_letter then ascii_of_nat (nat_of_ascii c + 32) else c)
          (title_from true s')
      else String c (title_from false s')
  end.

Definition title (s : string) : string := title_from false s.

Definition assert (cond : bool) (msg : string) : Py unit :=
  if cond then ret tt else raise (AssertionError msg).

(** [os.path.exists] and [os.makedirs] *)
Definition os_path_exists (path : string) : Py bool :=
  λ w, (Ok (bool_decide (path ∈ dirs w) || bool_decide (is_Some (files w !! path))), w).

Definition os_makedirs (path : string) : Py unit :=
  λ w, if String.eqb path EmptyString then (Raise (FileNotFoundError path), w)
       else (Ok tt, mkWorld (files w) ({[path]} ∪ dirs w) (log w) (progress w)).

(** ** The fetch script

    What the script takes from outside: the registered countries, the
    project connect API client, the school table schema and the CSV reader
    and writer of [pandas]. *)
Class FetchCollaborators : Type := {
  RawSchool : Type;
  SchoolTable : Type;
  REGISTERED_COUNTRIES : list string;
  get_schools : string → string → Result (list RawSchool);
  GigaSchoolTable : list RawSchool → Result SchoolTable;
  to_data_frame : SchoolTable → DataFrame;
  read_csv_text : string → Result DataFrame;
  to_csv_text : DataFrame → string
}.

Module FetchSchools.

Record Args : Type := mkArgs {
  workspace_directory : string;
  api_token : string;
  country : string
}.

Record Namespace : Type := mkNamespace {
  ns_workspace_directory : option string;
  ns_api_token : option string;
  ns_country : option string
}.

Definition store `{FetchCollaborators} (tok : string) (rest : list string)
    (ns : Namespace) : Result Namespace :=
  if mem tok ["--workspace-directory"; "-w"] then
    rbind (argument rest) (λ v,
      Ok (mkNamespace (Some v) (ns_api_token ns) (ns_country ns)))
  else if mem tok ["--api-token"; "-a"] then
    rbind (argument rest) (λ v,
      Ok (mkNamespace (ns_workspace_directory ns) (Some v) (ns_country ns)))
  else if mem tok ["--country"; "-c"] then
    rbind (argument rest) (λ v,
      if mem v REGISTERED_COUNTRIES then
        Ok (mkNamespace (ns_workspace_directory ns) (ns_api_token ns) (Some v))
      else usage_error)
  else usage_error.

Fixpoint consume `{FetchCollaborators} (argv : list string) (ns : Namespace)
    : Result Namespace :=
  match argv with
  | [] => Ok ns
  | tok :: rest =>
      if mem tok ["-h"; "--help"] then Raise (SystemExit 0)
      else
        match store tok rest ns with
        | Ok ns' => match rest with _ :: rest' => consume rest' ns' | [] => usage_error end
        | Raise e => Raise e
        end
  end.

Definition parse_args `{FetchCollaborators} (argv : list string) : Result Args :=
  rbind (consume argv (mkNamespace None None None)) (λ ns,
    match ns_workspace_directory ns, ns_api_token ns, ns_country ns with
    | Some w, Some a, Some c => Ok (mkArgs w a c)
    | _, _, _ => usage_error
    end).

Definition pd_read_csv `{FetchCollaborators} (path : string) : Py DataFrame :=
  let* text := read_file path in lift (read_csv_text text).

Definition required_columns : list string :=
  ["giga_id_school"; "electricity"; "fiber"; "num_students"; "coverage_type"].

(** Lines 144-171: export supplemental data. *)
Definition supplemental `{FetchCollaborators} (args : Args) : Py DataFrame :=
  try_except_FileNotFoundError
    (let* sup :=
       pd_read_csv
         (os_path_join (workspace_directory args) "schools_supplemental.csv") in
     assert (forallb (λ k, mem k (keys sup)) required_columns)
       "Supplemental data is missing required columns";;
     let* sup := lift (getitem_list required_columns sup) in
     ret (rename
            [("giga_id_school", "giga_id");
             ("electricity", "has_electricity");
             ("fiber", "has_fiber");
             ("coverage_type", "cell_coverage_type")] sup))
    (ret (empty_frame ["giga_id"])).

(** [lambda x: int(0 if x is None else x)] *)
Definition students (x : Cell) : Result Cell :=
  rbind (int (match x with CNone => CInt 0 | _ => x end)) (λ n, Ok (CInt n)).

(** [lambda x: True if (x == "Good" or x == "Moderate") else False] *)
Definition is_connected (x : Cell) : bool :=
  match x with
  | CStr s => String.eqb s "Good" || String.eqb s "Moderate"
  | _ => false
  end.

(** Lines 180-199: update the base frame with the supplemental data, make
    connectivity boolean, and rename to the base schema. *)
Definition transform (frame sup : DataFrame) : Result DataFrame :=
  rbind (set_index "giga_id" sup) (λ sup,
  rbind (set_index "giga_id" frame) (λ frame,
  rbind (update frame sup) (λ frame,
  rbind (reset_index frame) (λ frame,
  rbind (getitem "num_students" frame) (λ num_students,
  rbind (apply students num_students) (λ num_students,
  let frame := setitem "num_students" num_students frame in
  rbind (getitem "connectivity_status" frame) (λ connectivity_status,
  let frame :=
    setitem "connected" (map (λ x, CBool (is_connected x)) connectivity_status)
      frame in
  Ok (rename
        [("giga_id", "giga_id_school");
         ("school_zone", "environment");
         ("connectivity_status", "connectivity_speed_status")] frame)))))))).

(** The table built from the primary data alone: the steps of [transform]
    with no supplemental update between them. *)
Definition transform_primary (frame : DataFrame) : Result DataFrame :=
  rbind (set_index "giga_id" frame) (λ frame,
  rbind (reset_index frame) (λ frame,
  rbind (getitem "num_students" frame) (λ num_students,
  rbind (apply students num_students) (λ num_students,
  let frame := setitem "num_students" num_students frame in
  rbind (getitem "connectivity_status" frame) (λ connectivity_status,
  let frame :=
    setitem "connected" (map (λ x, CBool (is_connected x)) connectivity_status)
      frame in
  Ok (rename
        [("giga_id", "giga_id_school");
         ("school_zone", "environment");
         ("connectivity_status", "connectivity_speed_status")] frame)))))).

(** Lines 201-204: write to csv in the desired workspace. *)
Definition write_table `{FetchCollaborators} (args : Args) (frame : DataFrame)
    : Py unit :=
  let* present := os_path_exists (workspace_directory args) in
  (if negb present then os_makedirs (workspace_directory args) else ret tt);;
  write_file (os_path_join (workspace_directory args) "schools.csv")
    (to_csv_text frame).

(** The world once the script has announced the fetch. *)
Definition announced (args : Args) (w : World) : World :=
  mkWorld (files w) (dirs w)
    (log w ++
       [(INFO, "Fetching up to date schools for country: " ++ title (country args))])
    (progress w).

Definition no_schools : exn :=
  AssertionError
    "No schools found for country, perhaps there is an issue with the project connect API".

Definition main `{FetchCollaborators} (argv : list string) : Py unit :=
  let* args := lift (parse_args argv) in
  LOGGER_info
    ("Fetching up to date schools for country: " ++ title (country args));;
  let* raw_schools := lift (get_schools (api_token args) (country args)) in
  let* sup := supplemental args in
  assert (0 <? length raw_schools)%nat
    "No schools found for country, perhaps there is an issue with the project connect API";;
  let* table := lift (GigaSchoolTable raw_schools) in
  let frame := to_data_frame table in
  let* frame := lift (transform frame sup) in
  write_table args frame.

End FetchSchools.

(** ** A small workspace to run the scripts on *)

Module Fixture.

Definition school_A : GigaSchool := mkGigaSchool "A" 0 0 false.
Definition school_B : GigaSchool := mkGigaSchool "B" 0 1 false.
Definition school_C : GigaSchool := mkGigaSchool "C" 1 1 true.
Definition tower_T1 : CellTower := mkCellTower "T1" 0 0.125.
Definition tower_T2 : CellTower := mkCellTower "T2" 5 5.

Definition quote : string := String (ascii_of_nat 34) EmptyString.

Fixpoint dumps (j : json) : string :=
  match j with
  | JNumber x =>
      match int_of_float x with
      | Ok n => pretty n
      | Raise _ => "Infinity"
      end
  | JString s => quote ++ s ++ quote
  | JObject fields =>
      "{" ++ (fix members (fs : list (string * json)) : string :=
                match fs with
                | [] => EmptyString
                | (k, v) :: fs' =>
                    quote ++ k ++ quote ++ ":" ++ dumps v ++ "," ++ members fs'
                end) fields ++ "}"
  end.

Definition runtime : Runtime :=
  {| float_of_str := λ s,
       if String.eqb s "inf" then Some infinity
       else (λ n, PrimFloat.of_uint63 (Uint63.of_Z n)) <$> int_of_str s;
     CellTowerTable_parse := λ text,
       if String.eqb text "towers" then Ok [tower_T1; tower_T2]
       else Raise (ValueError "malformed cell tower table");
     GigaSchoolTable_parse := λ text,
       if String.eqb text "schools" then Ok [school_A; school_B; school_C]
       else Raise (ValueError "malformed school table");
     json_dumps := dumps |}.

(** A stand-in for the geodesic formula: 111 km per degree, along the axes. *)
Definition distance (a b : Coordinate) : float :=
  (111000 * (abs (lat a - lat b) + abs (lon a - lon b)))%float.

Definition empty_world : World := mkWorld ∅ ∅ [] [].

Definition workspace : World :=
  mkWorld {[ "ws/cellular.csv" := "towers"; "ws/schools.csv" := "schools" ]}
    {[ "ws" ]} [] [].

Definition frame : DataFrame :=
  mkFrame None [CInt 0; CInt 1; CInt 2]
    [("giga_id", [CStr "a"; CStr "b"; CStr "c"]);
     ("num_students", [CInt 120; CNone; CFloat 35.5]);
     ("connectivity_status", [CStr "Good"; CStr "No connectivity"; CNone]);
     ("school_zone", [CStr "rural"; CStr "urban"; CStr "rural"])].

Definition fetch : FetchCollaborators :=
  {| RawSchool := string;
     SchoolTable := list string;
     REGISTERED_COUNTRIES := ["rwanda"; "brazil"];
     get_schools := λ token c,
       if String.eqb c "rwanda" then Ok ["a"; "b"; "c"] else Ok [];
     GigaSchoolTable := λ raw, Ok raw;
     to_data_frame := λ _, frame;
     read_csv_text := λ text,
       if String.eqb text "ids" then Ok (mkFrame None [CInt 0] [("giga_id_school", [CStr "a"])])
       else Raise (ValueError "malformed supplemental table");
     to_csv_text := λ df, String.concat "," (keys df) |}.

End Fixture.

(** A second survey: a supplemental table with every required column and
    one more, and a country whose school counts hold a NaN. *)
Module Survey.

Definition supplemental_table : DataFrame :=
  mkFrame None [CInt 0; CInt 1]
    [("giga_id_school", [CStr "b"; CStr "z"]);
     ("electricity", [CBool true; CBool false]);
     ("notes", [CStr "visited"; CStr "closed"]);
     ("fiber", [CBool false; CBool true]);
     ("num_students", [CInt 40; CInt 7]);
     ("coverage_type", [CStr "4G"; CStr "3G"])].

Definition frame_nan : DataFrame :=
  mkFrame None [CInt 0; CInt 1]
    [("giga_id", [CStr "x"; CStr "y"]);
     ("num_students", [CInt 10; CFloat nan]);
     ("connectivity_status", [CStr "Good"; CStr "Moderate"])].

Definition fetch : FetchCollaborators :=
  {| RawSchool := string;
     SchoolTable := list string;
     REGISTERED_COUNTRIES := ["rwanda"; "brazil"];
     get_schools := λ token c,
       if String.eqb c "rwanda" then Ok ["a"; "b"; "c"] else Ok ["x"];
     GigaSchoolTable := λ raw, Ok raw;
     to_data_frame := λ table,
       match table with
       | [_] => frame_nan
       | _ => Fixture.frame
       end;
     read_csv_text := λ text,
       if String.eqb text "full" then Ok supplemental_table
       else Raise (ValueError "malformed supplemental table");
     to_csv_text := λ df, String.concat "," (keys df) |}.

Definition workspace : World :=
  mkWorld {[ "ws/schools_supplemental.csv" := "full" ]} {[ "ws" ]} [] [].

End Survey.

(** ** What a script may write *)

(** [m] leaves every file whose path is not [allowed] as it found it,
    whatever its outcome. *)
Definition writes_only {A} (allowed : string → Prop) (m : Py A) : Prop :=
  ∀ (w : World) (p : string),
    ¬ allowed p → files (snd (m w)) !! p = files w !! p.

(** * Properties *)

(** ** The model at work on the small workspace *)

Example join_workspace_path :
  os_path_join "ws" "cellular.csv" = "ws/cellular.csv"
  ∧ os_path_join "ws/" "cellular.csv" = "ws/cellular.csv".
Proof. split; reflexivity. Qed.

Example int_literals :
  int_of_str " 1_000 " = Some 1000 ∧ int_of_str "-12" = Some (-12)
  ∧ int_of_str "1__0" = None ∧ int_of_str "12.0" = None.
Proof. repeat split; reflexivity. Qed.

Example int_truncates : int_of_float 35.5 = Ok 35 ∧ int_of_float (-35.5) = Ok (-35).
Proof. split; reflexivity. Qed.

Example command_line_in_full :
  CacheBuilder.parse_args (H := Fixture.runtime)
    ["-w"; "ws"; "--n-chunks"; "2"; "-md"; "50000"; "-ic"]
  = Ok (CacheBuilder.mkArgs "ws" true 2 20 50000 "_cache").
Proof. reflexivity. Qed.

Example command_line_without_workspace :
  CacheBuilder.parse_args (H := Fixture.runtime) ["-nc"; "2"] = Raise (SystemExit 2).
Proof. reflexivity. Qed.

(** The scenario of the specification: A has T1 within the bound, B has no
    tower within it, so the single-lookup cache holds A alone. *)
Example scenario_neighbors :
  fst (DistanceEngine.run_chunks Fixture.distance (mkModel true 1 50000)
         (schools_to_coordinates [Fixture.school_A; Fixture.school_B],
          towers_to_coordinates [Fixture.tower_T1; Fixture.tower_T2]) 2)
  = Ok {[ "A" := [mkNeighborMatch "A" "T1" 13875]; "B" := [] ]}.
Proof. vm_compute. reflexivity. Qed.

Example scenario_cache :
  DistanceEngine.build_single
    {[ "A" := [mkNeighborMatch "A" "T1" 13875]; "B" := [] ]}
  = {[ "A" := mkNeighborMatch "A" "T1" 13875 ]}.
Proof. vm_compute. reflexivity. Qed.

Example builder_writes_cache :
  files (snd (CacheBuilder.main (H := Fixture.runtime)
                (H0 := DistanceEngine.core Fixture.distance)
                ["-w"; "ws"; "-nn"; "1"; "-md"; "50000"] Fixture.workspace))
    !! "ws/cellular_cache.json"
  = Some (Fixture.dumps
            (JObject [("A", JObject [("target_id", JString "T1");
                                     ("distance_meters", JNumber 13875)])])).
Proof. vm_compute. reflexivity. Qed.

Example fetch_transforms :
  FetchSchools.transform Fixture.frame (empty_frame ["giga_id"])
  = Ok (mkFrame None [CInt 0; CInt 1; CInt 2]
          [("giga_id_school", [CStr "a"; CStr "b"; CStr "c"]);
           ("num_students", [CInt 120; CInt 0; CInt 35]);
           ("connectivity_speed_status", [CStr "Good"; CStr "No connectivity"; CNone]);
           ("environment", [CStr "rural"; CStr "urban"; CStr "rural"]);
           ("connected", [CBool true; CBool false; CBool false])]).
Proof. reflexivity. Qed.

Example update_overwrites_with_values :
  update
    (mkFrame (Some "giga_id") [CStr "a"; CStr "b"]
       [("num_students", [CInt 1; CInt 2]); ("has_fiber", [CNone; CNone])])
    (mkFrame (Some "giga_id") [CStr "b"; CStr "z"]
       [("num_students", [CFloat nan; CInt 9]); ("has_fiber", [CBool true; CBool false])])
  = Ok (mkFrame (Some "giga_id") [CStr "a"; CStr "b"]
          [("num_students", [CInt 1; CInt 2]); ("has_fiber", [CNone; CBool true])]).
Proof. reflexivity. Qed.

(** ** Running a script, step by step *)

Lemma bind_ok {A B} (m : Py A) (k : A → Py B) w a w' :
  m w = (Ok a, w') → bind m k w = k a w'.
Proof. intros Hm. unfold bind. by rewrite Hm. Qed.

Lemma bind_raise {A B} (m : Py A) (k : A → Py B) w e w' :
  m w = (Raise e, w') → bind m k w = (Raise e, w').
Proof. intros Hm. unfold bind. by rewrite Hm. Qed.

Lemma lift_bind {A B} (r : Result A) (k : A → Py B) w :
  bind (lift r) k w = match r with Ok a => k a w | Raise e => (Raise e, w) end.
Proof. unfold bind, lift. by destruct r. Qed.

Lemma read_file_present path text w :
  files w !! path = Some text → read_file path w = (Ok text, w).
Proof. intros Hf. unfold read_file. by rewrite Hf. Qed.

Lemma from_csv_present {A} (parse : string → Result A) path text w :
  files w !! path = Some text →
  CacheBuilder.from_csv parse path w = (parse text, w).
Proof.
  intros Hf. unfold CacheBuilder.from_csv.
  by rewrite (bind_ok _ _ _ _ _ (read_file_present _ _ _ Hf)).
Qed.

Lemma is_file_absent path w :
  files w !! path = None → CacheBuilder.data_store_is_file path w = (Ok false, w).
Proof.
  intros Hf. unfold CacheBuilder.data_store_is_file. rewrite Hf.
  rewrite bool_decide_eq_false_2; [done | by intros [? ?]].
Qed.

Lemma is_file_present path text w :
  files w !! path = Some text →
  CacheBuilder.data_store_is_file path w = (Ok true, w).
Proof.
  intros Hf. unfold CacheBuilder.data_store_is_file. rewrite Hf.
  by rewrite bool_decide_eq_true_2.
Qed.

(** ** The cache builder *)

Lemma main_parsed `{Runtime} `{Core} (argv : list string)
    (args : CacheBuilder.Args) (w : World) :
  CacheBuilder.parse_args argv = Ok args →
  CacheBuilder.main argv w = CacheBuilder.run args w.
Proof. intros Hargs. unfold CacheBuilder.main. by rewrite lift_bind, Hargs. Qed.

(** C1. When [cellular.csv] is absent from the workspace directory, the
    cache builder logs a warning, leaves an empty [cellular.csv] in the
    workspace and ends normally: nothing is raised and nothing else is
    written. *)
Theorem missing_cellular_warns_and_leaves_empty_file
    `{Runtime} `{Core} (argv : list string) (args : CacheBuilder.Args) (w : World) :
  CacheBuilder.parse_args argv = Ok args →
  files w !! os_path_join (CacheBuilder.workspace_directory args) "cellular.csv" = None →
  CacheBuilder.main argv w =
    (Ok tt,
     mkWorld
       (<[os_path_join (CacheBuilder.workspace_directory args) "cellular.csv" := EmptyString]>
          (files w))
       (dirs w)
       (log w ++
          [(WARNING,
            "Cell tower file not found in "
              ++ CacheBuilder.workspace_directory args
              ++ ", creating empty file.")])
       (progress w)).
Proof.
  intros Hargs Habsent.
  unfold CacheBuilder.main.
  rewrite (bind_ok _ _ w args w) by (unfold lift; by rewrite Hargs).
  unfold CacheBuilder.run.
  rewrite (bind_ok _ _ _ _ _ (is_file_absent _ _ Habsent)). simpl.
  unfold bind, LOGGER_warning, CacheBuilder.data_store_open_append_close,
    write_file, ret. simpl.
  by rewrite Habsent.
Qed.

Lemma missing_cellular_witness :
  CacheBuilder.main (H := Fixture.runtime) (H0 := DistanceEngine.core Fixture.distance)
    ["-w"; "ws"] Fixture.empty_world =
  (Ok tt,
   mkWorld {[ "ws/cellular.csv" := EmptyString ]} ∅
     [(WARNING, "Cell tower file not found in ws, creating empty file.")] []).
Proof.
  apply (missing_cellular_warns_and_leaves_empty_file (H := Fixture.runtime)
           (H0 := DistanceEngine.core Fixture.distance)
           ["-w"; "ws"]
           (CacheBuilder.mkArgs "ws" false 1000 20 infinity "_cache")
           Fixture.empty_world); reflexivity.
Defined.

(** C3. With the include-connected flag off, the queries handed on to the
    distance computation are the schools of [schools.csv] whose connected
    flag is false, all of them and no other; with the flag on, they are the
    schools as read. *)
Theorem connected_schools_excluded_from_queries
    `{Runtime} `{Core} (argv : list string) (args : CacheBuilder.Args) (w : World)
    (cellular_text schools_text : string)
    (towers : list CellTower) (schools : list GigaSchool) :
  CacheBuilder.parse_args argv = Ok args →
  files w !! os_path_join (CacheBuilder.workspace_directory args) "cellular.csv"
    = Some cellular_text →
  CellTowerTable_parse cellular_text = Ok towers →
  files w !! os_path_join (CacheBuilder.workspace_directory args) "schools.csv"
    = Some schools_text →
  GigaSchoolTable_parse schools_text = Ok schools →
  ∃ (queries : list GigaSchool) (w' : World),
    CacheBuilder.main argv w = CacheBuilder.build_cache args queries towers w' ∧
    files w' = files w ∧
    if CacheBuilder.include_connected args then queries = schools
    else ∀ s, s ∈ queries ↔ s ∈ schools ∧ connected s = false.
Proof.
  intros Hargs Hcell Htowers Hsch Hschools.
  rewrite (main_parsed argv args w Hargs).
  unfold CacheBuilder.run.
  rewrite (bind_ok _ _ _ _ _ (is_file_present _ _ _ Hcell)). simpl.
  rewrite (bind_ok _ _ w towers w)
    by (rewrite (from_csv_present _ _ _ _ Hcell); by rewrite Htowers).
  rewrite (bind_ok _ _ w schools w)
    by (rewrite (from_csv_present _ _ _ _ Hsch); by rewrite Hschools).
  unfold CacheBuilder.exclude_connected.
  destruct (CacheBuilder.include_connected args); simpl.
  - exists schools, w. by rewrite (bind_ok _ _ w schools w).
  - eexists _, _. split; [|split].
    + unfold bind at 1. unfold bind at 1. simpl. reflexivity.
    + reflexivity.
    + intros s. rewrite list_elem_of_filter.
      destruct (connected s); simpl; split; intros [? ?]; done.
Qed.

Lemma connected_schools_excluded_witness :
  ∃ (queries : list GigaSchool) (w' : World),
    CacheBuilder.main (H := Fixture.runtime) (H0 := DistanceEngine.core Fixture.distance)
      ["-w"; "ws"; "-nc"; "2"; "-nn"; "1"; "-md"; "50000"] Fixture.workspace
    = CacheBuilder.build_cache (H := Fixture.runtime)
        (H0 := DistanceEngine.core Fixture.distance)
        (CacheBuilder.mkArgs "ws" false 2 1 50000 "_cache")
        queries [Fixture.tower_T1; Fixture.tower_T2] w' ∧
    files w' = files Fixture.workspace ∧
    ∀ s, s ∈ queries ↔
         s ∈ [Fixture.school_A; Fixture.school_B; Fixture.school_C]
         ∧ connected s = false.
Proof.
  apply (connected_schools_excluded_from_queries (H := Fixture.runtime)
           (H0 := DistanceEngine.core Fixture.distance)
           ["-w"; "ws"; "-nc"; "2"; "-nn"; "1"; "-md"; "50000"]
           (CacheBuilder.mkArgs "ws" false 2 1 50000 "_cache")
           Fixture.workspace "towers" "schools"); reflexivity.
Defined.





(** ** The distance engine *)

Section EngineProperties.
Variable distance : Coordinate → Coordinate → float.
Variable model : VectorizedDistanceModel.
Variable references : list Coordinate.

Lemma foldl_record_neighbors (queries : list Coordinate) :
  ∀ acc,
    foldl (DistanceEngine.record_neighbors distance model references) acc queries
    = foldl (DistanceEngine.record_neighbors distance model references) ∅ queries
      ∪ acc.
Proof.
  induction queries as [|q queries IH]; intros acc; simpl.
  - by rewrite (left_id_L ∅ (∪)).
  - rewrite IH, (IH (DistanceEngine.record_neighbors _ _ _ ∅ q)).
    unfold DistanceEngine.record_neighbors.
    rewrite (insert_union_singleton_l acc), (insert_union_singleton_l ∅).
    by rewrite (right_id_L ∅ (∪)), (assoc_L (∪)).
Qed.

(** Computing two runs of queries one after the other and merging is
    computing their concatenation. *)
Lemma compute_chunk_app (chunk1 chunk2 : list Coordinate) :
  DistanceEngine.compute_chunk distance model references (chunk1 ++ chunk2)
  = DistanceEngine.compute_chunk distance model references chunk2
    ∪ DistanceEngine.compute_chunk distance model references chunk1.
Proof.
  unfold DistanceEngine.compute_chunk.
  by rewrite foldl_app, foldl_record_neighbors.
Qed.

Lemma merge_chunks_from (parts : list (list Coordinate)) :
  ∀ acc,
    foldl (λ acc result, result ∪ acc) acc
      (map (DistanceEngine.compute_chunk distance model references) parts)
    = DistanceEngine.compute_chunk distance model references (concat parts) ∪ acc.
Proof.
  induction parts as [|part parts IH]; intros acc; simpl.
  - unfold DistanceEngine.compute_chunk. simpl. by rewrite (left_id_L ∅ (∪)).
  - by rewrite IH, compute_chunk_app, (assoc_L (∪)).
Qed.

Lemma merge_chunks_concat (parts : list (list Coordinate)) :
  DistanceEngine.merge_chunks
    (map (DistanceEngine.compute_chunk distance model references) parts)
  = DistanceEngine.compute_chunk distance model references (concat parts).
Proof.
  unfold DistanceEngine.merge_chunks.
  by rewrite merge_chunks_from, (right_id_L ∅ (∪)).
Qed.

Lemma concat_partition (k size : nat) :
  ∀ queries, concat (DistanceEngine.partition k size queries) = queries.
Proof.
  induction k as [|k IH]; intros queries; simpl.
  - by rewrite app_nil_r.
  - by rewrite IH, take_drop.
Qed.

Lemma run_chunks_result (queries : list Coordinate) (n_chunks : Z) :
  1 ≤ n_chunks →
  fst (DistanceEngine.run_chunks distance model (queries, references) n_chunks)
  = if DistanceEngine.valid_model model
    then Ok (DistanceEngine.compute distance model queries references)
    else Raise (ConfigurationError "invalid distance model configuration").
Proof.
  intros Hn. unfold DistanceEngine.run_chunks, DistanceEngine.valid.
  destruct (DistanceEngine.valid_model model); simpl; [|done].
  rewrite (proj2 (Z.leb_le 1 n_chunks) Hn). simpl.
  unfold DistanceEngine.chunks.
  by rewrite merge_chunks_concat, concat_partition.
Qed.
End EngineProperties.

(** C2. Chunk invariance: any two chunk counts of at least one give the
    same outcome of [run_chunks], on every pair of coordinate collections;
    under a valid model that outcome is the neighbor-list mapping of the
    whole query collection computed at once. *)
Theorem chunk_count_does_not_affect_result
    (distance : Coordinate → Coordinate → float)
    (model : VectorizedDistanceModel)
    (queries references : list Coordinate) (n m : Z) :
  1 ≤ n → 1 ≤ m →
  fst (DistanceEngine.run_chunks distance model (queries, references) n)
  = fst (DistanceEngine.run_chunks distance model (queries, references) m)
  ∧ fst (DistanceEngine.run_chunks distance model (queries, references) n)
    = if DistanceEngine.valid_model model
      then Ok (DistanceEngine.compute distance model queries references)
      else Raise (ConfigurationError "invalid distance model configuration").
Proof.
  intros Hn Hm. split.
  - by rewrite !run_chunks_result.
  - by apply run_chunks_result.
Qed.

Lemma chunk_count_witness :
  fst (DistanceEngine.run_chunks Fixture.distance (mkModel true 1 50000)
         (schools_to_coordinates [Fixture.school_A; Fixture.school_B],
          towers_to_coordinates [Fixture.tower_T1; Fixture.tower_T2]) 1)
  = fst (DistanceEngine.run_chunks Fixture.distance (mkModel true 1 50000)
           (schools_to_coordinates [Fixture.school_A; Fixture.school_B],
            towers_to_coordinates [Fixture.tower_T1; Fixture.tower_T2]) 2)
  ∧ fst (DistanceEngine.run_chunks Fixture.distance (mkModel true 1 50000)
           (schools_to_coordinates [Fixture.school_A; Fixture.school_B],
            towers_to_coordinates [Fixture.tower_T1; Fixture.tower_T2]) 1)
    = Ok (DistanceEngine.compute Fixture.distance (mkModel true 1 50000)
            (schools_to_coordinates [Fixture.school_A; Fixture.school_B])
            (towers_to_coordinates [Fixture.tower_T1; Fixture.tower_T2])).
Proof.
  apply (chunk_count_does_not_affect_result Fixture.distance (mkModel true 1 50000)
           (schools_to_coordinates [Fixture.school_A; Fixture.school_B])
           (towers_to_coordinates [Fixture.tower_T1; Fixture.tower_T2]) 1 2); lia.
Defined.


(** ** The persisted cache *)

Lemma insert_by_perm {A} (le : A → A → bool) (x : A) (l : list A) :
  DistanceEngine.insert_by le x l ≡ₚ x :: l.
Proof.
  induction l as [|y l IH]; simpl; [done|].
  destruct (le x y); [done|]. by rewrite IH, Permutation_swap.
Qed.

Lemma sort_by_perm {A} (le : A → A → bool) (l : list A) :
  DistanceEngine.sort_by le l ≡ₚ l.
Proof.
  unfold DistanceEngine.sort_by.
  induction l as [|x l IH]; simpl; [done|]. by rewrite insert_by_perm, IH.
Qed.

Lemma from_csv_absent {A} (parse : string → Result A) path w :
  files w !! path = None →
  CacheBuilder.from_csv parse path w = (Raise (FileNotFoundError path), w).
Proof.
  intros Hf. unfold CacheBuilder.from_csv, bind, read_file. by rewrite Hf.
Qed.

(** The fields of the persisted object: one per source identifier of the
    cache, each holding that source's single match. *)
Lemma single_cache_fields (cache : gmap string NeighborMatch) :
  ∃ fields : list (string * json),
    DistanceEngine.single_cache_json cache = JObject fields
    ∧ NoDup (map fst fields)
    ∧ ∀ (src : string) (j : json),
        (src, j) ∈ fields ↔
        ∃ m : NeighborMatch,
          cache !! src = Some m
          ∧ j = JObject [("target_id", JString (target_id m));
                         ("distance_meters", JNumber (distance_meters m))].
Proof.
  eexists. split; [reflexivity|]. split.
  - rewrite <- list_fmap_compose.
    rewrite (sort_by_perm _ (map_to_list cache)).
    apply (NoDup_fst_map_to_list cache).
  - intros src j. rewrite list_elem_of_fmap. split.
    + intros ([k m] & Heq & Hin). rewrite sort_by_perm in Hin.
      apply elem_of_map_to_list in Hin.
      unfold DistanceEngine.entry_json in Heq. simpl in Heq. simplify_eq. eauto.
    + intros (m & Hm & ->). exists (src, m). split; [reflexivity|].
      rewrite sort_by_perm. by apply elem_of_map_to_list.
Qed.

(** A run that finds [cellular.csv] and ends normally went through the
    engine and ended by writing the cache file. *)
Lemma run_ok_inv `{Runtime} `{Core} (args : CacheBuilder.Args) (w : World) :
  is_Some (files w !! os_path_join (CacheBuilder.workspace_directory args) "cellular.csv") →
  fst (CacheBuilder.run args w) = Ok tt →
  ∃ (queries : list GigaSchool) (towers : list CellTower)
    (dists : gmap string NeighborList) (w' : World),
    fst (run_chunks (CacheBuilder.model_of args)
           (schools_to_coordinates queries, towers_to_coordinates towers)
           (CacheBuilder.n_chunks args)) = Ok dists
    ∧ CacheBuilder.run args w
      = write_file
          (os_path_join (CacheBuilder.workspace_directory args)
             ("cellular" ++ CacheBuilder.file_suffix args ++ ".json"))
          (json_dumps (cache_json (from_distances dists))) w'.
Proof.
  intros [cellular_text Hcell].
  remember (CacheBuilder.run args w) as outcome eqn:Hout.
  unfold CacheBuilder.run in Hout.
  rewrite (bind_ok _ _ _ _ _ (is_file_present _ _ _ Hcell)) in Hout.
  simpl in Hout.
  unfold bind at 1 in Hout. rewrite (from_csv_present _ _ _ _ Hcell) in Hout.
  destruct (CellTowerTable_parse cellular_text) as [towers|e];
    [|by subst outcome].
  unfold bind at 1 in Hout.
  destruct (files w !! os_path_join (CacheBuilder.workspace_directory args) "schools.csv")
    as [schools_text|] eqn:Hsch.
  2: { rewrite (from_csv_absent _ _ _ Hsch) in Hout. by subst outcome. }
  rewrite (from_csv_present _ _ _ _ Hsch) in Hout.
  destruct (GigaSchoolTable_parse schools_text) as [schools|e];
    [|by subst outcome].
  unfold bind at 1 in Hout.
  destruct (CacheBuilder.exclude_connected args schools w) as [[queries|e] w1];
    [|by subst outcome].
  unfold CacheBuilder.build_cache in Hout.
  unfold bind at 1 in Hout. unfold report_progress at 1 in Hout.
  rewrite lift_bind in Hout.
  destruct (fst (run_chunks (CacheBuilder.model_of args)
                   (schools_to_coordinates queries, towers_to_coordinates towers)
                   (CacheBuilder.n_chunks args))) as [dists|e] eqn:Hdists;
    [|by subst outcome].
  intros _. eexists queries, towers, dists, _. split; [exact Hdists | exact Hout].
Qed.

(** C5, as the code has it.  A run of the cache builder that finds
    [cellular.csv] and ends normally leaves, at [cellular<suffix>.json] in
    the workspace, the JSON text of one object whose fields are the source
    identifiers, each exactly once, each holding the [target_id] and
    [distance_meters] of the first entry of that source's neighbor list as
    the engine returned it; a source whose list is empty has no field. *)
Theorem cache_file_is_single_lookup
    `{Runtime} (distance : Coordinate → Coordinate → float)
    (argv : list string) (args : CacheBuilder.Args) (w : World) :
  CacheBuilder.parse_args argv = Ok args →
  is_Some (files w !! os_path_join (CacheBuilder.workspace_directory args) "cellular.csv") →
  fst (CacheBuilder.main (H0 := DistanceEngine.core distance) argv w) = Ok tt →
  ∃ (queries : list GigaSchool) (towers : list CellTower)
    (dists : gmap string NeighborList) (fields : list (string * json)),
    fst (DistanceEngine.run_chunks distance (CacheBuilder.model_of args)
           (schools_to_coordinates queries, towers_to_coordinates towers)
           (CacheBuilder.n_chunks args)) = Ok dists
    ∧ files (snd (CacheBuilder.main (H0 := DistanceEngine.core distance) argv w))
        !! os_path_join (CacheBuilder.workspace_directory args)
             ("cellular" ++ CacheBuilder.file_suffix args ++ ".json")
      = Some (json_dumps (JObject fields))
    ∧ NoDup (map fst fields)
    ∧ ∀ (src : string) (j : json),
        (src, j) ∈ fields ↔
        ∃ m : NeighborMatch,
          dists !! src ≫= head = Some m
          ∧ j = JObject [("target_id", JString (target_id m));
                         ("distance_meters", JNumber (distance_meters m))].
Proof.
  intros Hargs Hcell Hrun.
  rewrite (main_parsed (H0 := DistanceEngine.core distance) argv args w Hargs)
    in Hrun |- *.
  destruct (run_ok_inv (H0 := DistanceEngine.core distance) args w Hcell Hrun)
    as (queries & towers & dists & w' & Hdists & ->).
  destruct (single_cache_fields (DistanceEngine.build_single dists))
    as (fields & Hjson & Hnodup & Hfields).
  exists queries, towers, dists, fields.
  split; [exact Hdists|]. split; [|split; [exact Hnodup|]].
  - unfold write_file. simpl. rewrite Hjson. apply lookup_insert_eq.
  - intros src j. rewrite Hfields. unfold DistanceEngine.build_single.
    by rewrite lookup_omap.
Qed.

Lemma cache_file_witness :
  ∃ (queries : list GigaSchool) (towers : list CellTower)
    (dists : gmap string NeighborList) (fields : list (string * json)),
    fst (DistanceEngine.run_chunks Fixture.distance (mkModel true 1 50000)
           (schools_to_coordinates queries, towers_to_coordinates towers) 2)
    = Ok dists
    ∧ files (snd (CacheBuilder.main (H := Fixture.runtime)
                    (H0 := DistanceEngine.core Fixture.distance)
                    ["-w"; "ws"; "-nc"; "2"; "-nn"; "1"; "-md"; "50000"]
                    Fixture.workspace))
        !! "ws/cellular_cache.json"
      = Some (Fixture.dumps (JObject fields))
    ∧ NoDup (map fst fields)
    ∧ ∀ (src : string) (j : json),
        (src, j) ∈ fields ↔
        ∃ m : NeighborMatch,
          dists !! src ≫= head = Some m
          ∧ j = JObject [("target_id", JString (target_id m));
                         ("distance_meters", JNumber (distance_meters m))].
Proof.
  apply (cache_file_is_single_lookup (H := Fixture.runtime) Fixture.distance
           ["-w"; "ws"; "-nc"; "2"; "-nn"; "1"; "-md"; "50000"]
           (CacheBuilder.mkArgs "ws" false 2 1 50000 "_cache") Fixture.workspace).
  - reflexivity.
  - exists "towers". reflexivity.
  - vm_compute. reflexivity.
Defined.

(** C5, as stated, fails: the run on a workspace without [cellular.csv] ends
    normally and leaves no cache file. *)
Lemma successful_run_without_cache_file :
  ¬ (∀ (argv : list string) (args : CacheBuilder.Args) (w : World),
       CacheBuilder.parse_args (H := Fixture.runtime) argv = Ok args →
       fst (CacheBuilder.main (H := Fixture.runtime)
              (H0 := DistanceEngine.core Fixture.distance) argv w) = Ok tt →
       is_Some
         (files (snd (CacheBuilder.main (H := Fixture.runtime)
                        (H0 := DistanceEngine.core Fixture.distance) argv w))
            !! os_path_join (CacheBuilder.workspace_directory args)
                 ("cellular" ++ CacheBuilder.file_suffix args ++ ".json"))).
Proof.
  intros Hall.
  specialize (Hall ["-w"; "ws"] _ Fixture.empty_world eq_refl eq_refl).
  vm_compute in Hall. destruct Hall as [text Htext]. discriminate.
Qed.

(** ** The fetch script *)

Lemma mem_elem_of (k : string) (names : list string) :
  mem k names = true ↔ k ∈ names.
Proof.
  unfold mem. induction names as [|name names IH]; simpl.
  - split; [discriminate | by intros ?%elem_of_nil].
  - rewrite orb_true_iff, IH, elem_of_cons, String.eqb_eq. done.
Qed.

Lemma read_file_absent path w :
  files w !! path = None → read_file path w = (Raise (FileNotFoundError path), w).
Proof. intros Hf. unfold read_file. by rewrite Hf. Qed.

(** Reading the supplemental table leaves the world as it was. *)
Lemma supplemental_world `{FetchCollaborators} (args : FetchSchools.Args) (w : World) :
  snd (FetchSchools.supplemental args w) = w.
Proof.
  unfold FetchSchools.supplemental, try_except_FileNotFoundError,
    FetchSchools.pd_read_csv, bind, read_file.
  destruct (files w !! _) as [text|]; [|reflexivity].
  unfold lift. destruct (read_csv_text text) as [sup|e]; [|by destruct e].
  unfold assert. destruct (forallb _ _); [|reflexivity].
  unfold ret at 1. destruct (getitem_list _ sup) as [sup'|e]; [reflexivity|].
  by destruct e.
Qed.

Lemma supplemental_missing_columns `{FetchCollaborators}
    (args : FetchSchools.Args) (w : World) (text : string) (sup : DataFrame)
    (k : string) :
  files w !! os_path_join (FetchSchools.workspace_directory args)
               "schools_supplemental.csv" = Some text →
  read_csv_text text = Ok sup →
  k ∈ FetchSchools.required_columns → k ∉ keys sup →
  FetchSchools.supplemental args w
  = (Raise (AssertionError "Supplemental data is missing required columns"), w).
Proof.
  intros Hfile Hread Hk Hmissing.
  assert (forallb (λ k, mem k (keys sup)) FetchSchools.required_columns = false)
    as Hall.
  { apply not_true_is_false. intros Hall. apply Hmissing, mem_elem_of.
    rewrite forallb_forall in Hall. by apply Hall, list_elem_of_In. }
  unfold FetchSchools.supplemental, try_except_FileNotFoundError,
    FetchSchools.pd_read_csv.
  rewrite (bind_ok _ _ w sup w).
  2: { rewrite (bind_ok _ _ _ _ _ (read_file_present _ _ _ Hfile)).
       unfold lift. by rewrite Hread. }
  unfold bind, assert. by rewrite Hall.
Qed.

Lemma supplemental_absent `{FetchCollaborators}
    (args : FetchSchools.Args) (w : World) :
  files w !! os_path_join (FetchSchools.workspace_directory args)
               "schools_supplemental.csv" = None →
  FetchSchools.supplemental args w = (Ok (empty_frame ["giga_id"]), w).
Proof.
  intros Hfile.
  unfold FetchSchools.supplemental, try_except_FileNotFoundError,
    FetchSchools.pd_read_csv.
  rewrite (bind_raise _ _ w
             (FileNotFoundError
                (os_path_join (FetchSchools.workspace_directory args)
                   "schools_supplemental.csv")) w); [reflexivity|].
  by rewrite (bind_raise _ _ _ _ _ (read_file_absent _ _ Hfile)).
Qed.

(** C6. When [schools_supplemental.csv] is there but lacks one of the
    required columns, the fetch script ends with an exception and writes
    nothing; once the schools have been fetched, the exception is the
    assertion error whose message says that the supplemental data is missing
    required columns. *)
Theorem malformed_supplemental_aborts
    `{FetchCollaborators} (argv : list string) (args : FetchSchools.Args)
    (w : World) (text : string) (sup : DataFrame) (k : string) :
  FetchSchools.parse_args argv = Ok args →
  files w !! os_path_join (FetchSchools.workspace_directory args)
               "schools_supplemental.csv" = Some text →
  read_csv_text text = Ok sup →
  k ∈ FetchSchools.required_columns → k ∉ keys sup →
  ∃ e : exn,
    fst (FetchSchools.main argv w) = Raise e
    ∧ files (snd (FetchSchools.main argv w)) = files w
    ∧ dirs (snd (FetchSchools.main argv w)) = dirs w
    ∧ e = match get_schools (FetchSchools.api_token args) (FetchSchools.country args) with
          | Ok _ => AssertionError "Supplemental data is missing required columns"
          | Raise e' => e'
          end.
Proof.
  intros Hargs Hfile Hread Hk Hmissing.
  remember (FetchSchools.main argv w) as outcome eqn:Hout.
  unfold FetchSchools.main in Hout.
  rewrite lift_bind, Hargs in Hout.
  unfold bind at 1 in Hout. unfold LOGGER_info at 1 in Hout.
  rewrite lift_bind in Hout.
  destruct (get_schools (FetchSchools.api_token args) (FetchSchools.country args))
    as [raw|e'].
  - erewrite bind_raise in Hout
      by (by apply (supplemental_missing_columns args _ text sup k)).
    subst outcome. eexists. repeat split; reflexivity.
  - subst outcome. eexists. repeat split; reflexivity.
Qed.

Lemma malformed_supplemental_witness :
  ∃ e : exn,
    fst (FetchSchools.main (H := Fixture.fetch)
           ["-w"; "ws"; "-a"; "token"; "-c"; "rwanda"]
           (mkWorld {[ "ws/schools_supplemental.csv" := "ids" ]} ∅ [] [])) = Raise e
    ∧ files (snd (FetchSchools.main (H := Fixture.fetch)
                    ["-w"; "ws"; "-a"; "token"; "-c"; "rwanda"]
                    (mkWorld {[ "ws/schools_supplemental.csv" := "ids" ]} ∅ [] [])))
      = {[ "ws/schools_supplemental.csv" := "ids" ]}
    ∧ dirs (snd (FetchSchools.main (H := Fixture.fetch)
                   ["-w"; "ws"; "-a"; "token"; "-c"; "rwanda"]
                   (mkWorld {[ "ws/schools_supplemental.csv" := "ids" ]} ∅ [] [])))
      = ∅
    ∧ e = AssertionError "Supplemental data is missing required columns".
Proof.
  refine (malformed_supplemental_aborts (H := Fixture.fetch)
            ["-w"; "ws"; "-a"; "token"; "-c"; "rwanda"]
            (FetchSchools.mkArgs "ws" "token" "rwanda")
            (mkWorld {[ "ws/schools_supplemental.csv" := "ids" ]} ∅ [] [])
            "ids" (mkFrame None [CInt 0] [("giga_id_school", [CStr "a"])])
            "fiber" _ _ _ _ _).
  - reflexivity.
  - reflexivity.
  - reflexivity.
  - unfold FetchSchools.required_columns. repeat constructor.
  - unfold keys. simpl. intros Hin. apply list_elem_of_singleton in Hin.
    discriminate.
Defined.

(** The fetch script, laid out by the outcome of each of its steps. *)
Lemma main_steps `{FetchCollaborators}
    (argv : list string) (args : FetchSchools.Args) (w : World) :
  FetchSchools.parse_args argv = Ok args →
  FetchSchools.main argv w =
    let w1 := FetchSchools.announced args w in
    match get_schools (FetchSchools.api_token args) (FetchSchools.country args) with
    | Raise e => (Raise e, w1)
    | Ok raw_schools =>
        match fst (FetchSchools.supplemental args w1) with
        | Raise e => (Raise e, w1)
        | Ok sup =>
            if (0 <? length raw_schools)%nat then
              match GigaSchoolTable raw_schools with
              | Raise e => (Raise e, w1)
              | Ok table =>
                  match FetchSchools.transform (to_data_frame table) sup with
                  | Raise e => (Raise e, w1)
                  | Ok frame => FetchSchools.write_table args frame w1
                  end
              end
            else (Raise FetchSchools.no_schools, w1)
        end
    end.
Proof.
  intros Hargs. unfold FetchSchools.main.
  rewrite lift_bind, Hargs.
  unfold bind at 1. unfold LOGGER_info at 1. fold (FetchSchools.announced args w).
  rewrite lift_bind. cbv zeta.
  destruct (get_schools _ _) as [raw|e]; [|reflexivity].
  unfold bind at 1.
  pose proof (supplemental_world args (FetchSchools.announced args w)) as Hworld.
  destruct (FetchSchools.supplemental args (FetchSchools.announced args w))
    as [[sup|e] w2]; simpl in Hworld; subst w2; simpl; [|reflexivity].
  unfold bind at 1. unfold assert.
  destruct (0 <? length raw)%nat; [|reflexivity].
  unfold ret at 1. rewrite lift_bind.
  destruct (GigaSchoolTable raw) as [table|e]; [|reflexivity].
  rewrite lift_bind. by destruct (FetchSchools.transform _ _).
Qed.

Lemma write_table_files `{FetchCollaborators}
    (args : FetchSchools.Args) (frame : DataFrame) (w : World) :
  fst (FetchSchools.write_table args frame w) = Ok tt →
  files (snd (FetchSchools.write_table args frame w))
  = <[os_path_join (FetchSchools.workspace_directory args) "schools.csv"
      := to_csv_text frame]> (files w).
Proof.
  unfold FetchSchools.write_table, bind, os_path_exists, os_makedirs, ret, write_file.
  simpl. destruct (negb _); [|reflexivity].
  by destruct (String.eqb _ _).
Qed.


(** C7. When the API returns no school, the fetch script ends with an
    exception and has written nothing: no file and no directory.  Unless
    reading the supplemental table failed first, the exception is the
    assertion error that says no schools were found. *)
Theorem empty_primary_source_aborts
    `{FetchCollaborators} (argv : list string) (args : FetchSchools.Args)
    (w : World) :
  FetchSchools.parse_args argv = Ok args →
  get_schools (FetchSchools.api_token args) (FetchSchools.country args) = Ok [] →
  ∃ e : exn,
    fst (FetchSchools.main argv w) = Raise e
    ∧ files (snd (FetchSchools.main argv w)) = files w
    ∧ dirs (snd (FetchSchools.main argv w)) = dirs w
    ∧ e = match fst (FetchSchools.supplemental args (FetchSchools.announced args w)) with
          | Ok _ => FetchSchools.no_schools
          | Raise e' => e'
          end.
Proof.
  intros Hargs Hempty.
  rewrite (main_steps argv args w Hargs), Hempty. cbv zeta.
  destruct (fst (FetchSchools.supplemental args (FetchSchools.announced args w)));
    simpl; eexists; repeat split; reflexivity.
Qed.

Lemma empty_primary_source_witness :
  ∃ e : exn,
    fst (FetchSchools.main (H := Fixture.fetch)
           ["-w"; "ws"; "-a"; "token"; "-c"; "brazil"] Fixture.empty_world) = Raise e
    ∧ files (snd (FetchSchools.main (H := Fixture.fetch)
                    ["-w"; "ws"; "-a"; "token"; "-c"; "brazil"] Fixture.empty_world))
      = ∅
    ∧ dirs (snd (FetchSchools.main (H := Fixture.fetch)
                   ["-w"; "ws"; "-a"; "token"; "-c"; "brazil"] Fixture.empty_world))
      = ∅
    ∧ e = FetchSchools.no_schools.
Proof.
  refine (empty_primary_source_aborts (H := Fixture.fetch)
            ["-w"; "ws"; "-a"; "token"; "-c"; "brazil"]
            (FetchSchools.mkArgs "ws" "token" "brazil")
            Fixture.empty_world _ _); reflexivity.
Defined.

Lemma rbind_ok {A B} (a : A) (k : A → Result B) : rbind (Ok a) k = k a.
Proof. reflexivity. Qed.

(** Updating with a table that has no column changes nothing. *)
Lemma update_no_columns (df other : DataFrame) :
  columns other = [] → index other = [] → update df other = Ok df.
Proof.
  intros Hcols Hindex. unfold update. rewrite Hindex. simpl.
  assert (map (update_column df other) (columns df) = columns df) as ->.
  { induction (columns df) as [|col cols IH]; simpl; [done|].
    rewrite IH. unfold update_column. by rewrite Hcols. }
  by destruct df.
Qed.

Lemma transform_empty_supplemental (frame : DataFrame) :
  FetchSchools.transform frame (empty_frame ["giga_id"])
  = FetchSchools.transform_primary frame.
Proof.
  unfold FetchSchools.transform, FetchSchools.transform_primary.
  change (set_index "giga_id" (empty_frame ["giga_id"]))
    with (Ok (mkFrame (Some "giga_id") [] [])).
  rewrite rbind_ok.
  destruct (set_index "giga_id" frame) as [indexed|e]; [|reflexivity].
  by rewrite !rbind_ok, update_no_columns, rbind_ok.
Qed.



(** ** The connected flag *)

Lemma column_lookup (name : string) (cols : list (string * list Cell))
    (values : list Cell) :
  column name cols = Some values → ∃ j : nat, cols !! j = Some (name, values).
Proof.
  induction cols as [|[c old] cols IH]; simpl; [discriminate|].
  destruct (String.eqb c name) eqn:Hc.
  - intros [= ->]. apply String.eqb_eq in Hc as ->. by exists O.
  - intros [j Hj]%IH. by exists (S j).
Qed.

Lemma replace_column_other (name : string) (values : list Cell)
    (cols : list (string * list Cell)) (j : nat) (c : string) (old : list Cell) :
  c ≠ name → cols !! j = Some (c, old) →
  replace_column name values cols !! j = Some (c, old).
Proof.
  intros Hc. revert j.
  induction cols as [|[c' old'] cols IH]; intros j Hj; [by destruct j|].
  simpl. destruct (String.eqb c' name) eqn:Hc'.
  - destruct j as [|j]; [|exact Hj].
    simpl in Hj. simplify_eq. apply String.eqb_eq in Hc'. done.
  - destruct j as [|j]; [exact Hj|]. simpl. by apply IH.
Qed.

Lemma column_replace_renamed (mapping : list (string * string)) (name : string)
    (values : list Cell) (cols : list (string * list Cell)) :
  renamed mapping name = name →
  (∀ c, c ≠ name → renamed mapping c ≠ name) →
  column name
    (map (λ col, (renamed mapping (fst col), snd col))
       (replace_column name values cols))
  = Some values.
Proof.
  intros Hfixed Hother.
  induction cols as [|[c old] cols IH]; simpl.
  - by rewrite Hfixed, String.eqb_refl.
  - destruct (String.eqb c name) eqn:Hc; simpl.
    + apply String.eqb_eq in Hc as ->. by rewrite Hfixed, String.eqb_refl.
    + apply String.eqb_neq in Hc. apply Hother in Hc.
      apply String.eqb_neq in Hc. by rewrite Hc.
Qed.

Lemma is_connected_spec (x : Cell) :
  FetchSchools.is_connected x = true ↔ x = CStr "Good" ∨ x = CStr "Moderate".
Proof.
  destruct x as [|n|f|s|b]; simpl; try (split; [discriminate | by intros [?|?]]).
  rewrite orb_true_iff, !String.eqb_eq. split; intros [?|?]; simplify_eq; auto.
Qed.

(** In the transformed table the connected column is computed, row by row,
    from the column that held the connectivity status. *)
Lemma transform_connected (frame sup out : DataFrame) :
  FetchSchools.transform frame sup = Ok out →
  ∃ (j : nat) (status : list Cell),
    columns out !! j = Some ("connectivity_speed_status", status)
    ∧ getitem "connected" out
      = Ok (map (λ x, CBool (FetchSchools.is_connected x)) status).
Proof.
  unfold FetchSchools.transform.
  destruct (set_index "giga_id" sup) as [sup'|?]; [|discriminate].
  rewrite rbind_ok.
  destruct (set_index "giga_id" frame) as [frame1|?]; [|discriminate].
  rewrite rbind_ok.
  destruct (update frame1 sup') as [frame2|?]; [|discriminate].
  rewrite rbind_ok.
  destruct (reset_index frame2) as [frame3|?]; [|discriminate].
  rewrite rbind_ok.
  destruct (getitem "num_students" frame3) as [num_students|?]; [|discriminate].
  rewrite rbind_ok.
  destruct (apply FetchSchools.students num_students) as [counts|?]; [|discriminate].
  rewrite rbind_ok. cbv zeta.
  destruct (getitem "connectivity_status" (setitem "num_students" counts frame3))
    as [status|?] eqn:Hstatus; [|discriminate].
  rewrite rbind_ok. intros [= <-].
  unfold getitem in Hstatus.
  destruct (column "connectivity_status" _) as [status'|] eqn:Hcol; [|discriminate].
  simplify_eq. apply column_lookup in Hcol as [j Hj].
  exists j, status. split.
  - unfold rename, setitem. cbn [columns].
    rewrite list_lookup_fmap.
    by rewrite (replace_column_other _ _ _ j "connectivity_status" status).
  - unfold getitem, rename, setitem. cbn [columns].
    rewrite column_replace_renamed; [reflexivity | reflexivity |].
    intros c Hc. unfold renamed.
    repeat match goal with
           | |- context [String.eqb ?a c] => destruct (String.eqb a c)
           end; done.
Qed.

(** C10. In the table the fetch script writes, the connected column is the
    test, row by row, of whether the connectivity status is the string
    "Good" or the string "Moderate"; any other value, a missing one
    included, gives false. *)
Theorem connected_iff_good_or_moderate
    `{FetchCollaborators} (argv : list string) (w : World) :
  fst (FetchSchools.main argv w) = Ok tt →
  ∃ (args : FetchSchools.Args) (out : DataFrame) (j : nat) (status : list Cell),
    FetchSchools.parse_args argv = Ok args
    ∧ files (snd (FetchSchools.main argv w))
        !! os_path_join (FetchSchools.workspace_directory args) "schools.csv"
      = Some (to_csv_text out)
    ∧ columns out !! j = Some ("connectivity_speed_status", status)
    ∧ getitem "connected" out
      = Ok (map (λ x, CBool (FetchSchools.is_connected x)) status)
    ∧ ∀ x : Cell,
        FetchSchools.is_connected x = true ↔ x = CStr "Good" ∨ x = CStr "Moderate".
Proof.
  intros Hrun.
  destruct (FetchSchools.parse_args argv) as [args|e] eqn:Hargs.
  2: { unfold FetchSchools.main in Hrun. rewrite lift_bind, Hargs in Hrun.
       discriminate. }
  pose proof (main_steps argv args w Hargs) as Hsteps. cbv zeta in Hsteps.
  destruct (get_schools _ _) as [raw|?];
    [|rewrite Hsteps in Hrun; discriminate].
  destruct (fst (FetchSchools.supplemental args (FetchSchools.announced args w)))
    as [sup|?]; [|rewrite Hsteps in Hrun; discriminate].
  destruct (0 <? length raw)%nat; [|rewrite Hsteps in Hrun; discriminate].
  destruct (GigaSchoolTable raw) as [table|?];
    [|rewrite Hsteps in Hrun; discriminate].
  destruct (FetchSchools.transform (to_data_frame table) sup) as [out|?] eqn:Hout;
    [|rewrite Hsteps in Hrun; discriminate].
  rewrite Hsteps in Hrun |- *.
  destruct (transform_connected _ _ _ Hout) as (j & status & Hj & Hflags).
  exists args, out, j, status. split; [reflexivity|].
  split; [|split; [exact Hj | split; [exact Hflags | exact is_connected_spec]]].
  rewrite (write_table_files _ _ _ Hrun). apply lookup_insert_eq.
Qed.

Lemma connected_witness :
  ∃ (args : FetchSchools.Args) (out : DataFrame) (j : nat) (status : list Cell),
    FetchSchools.parse_args (H := Fixture.fetch)
      ["-w"; "ws"; "-a"; "token"; "-c"; "rwanda"] = Ok args
    ∧ files (snd (FetchSchools.main (H := Fixture.fetch)
                    ["-w"; "ws"; "-a"; "token"; "-c"; "rwanda"] Fixture.empty_world))
        !! os_path_join (FetchSchools.workspace_directory args) "schools.csv"
      = Some (to_csv_text (FetchCollaborators := Fixture.fetch) out)
    ∧ columns out !! j = Some ("connectivity_speed_status", status)
    ∧ getitem "connected" out
      = Ok (map (λ x, CBool (FetchSchools.is_connected x)) status)
    ∧ ∀ x : Cell,
        FetchSchools.is_connected x = true ↔ x = CStr "Good" ∨ x = CStr "Moderate".
Proof.
  apply (connected_iff_good_or_moderate (H := Fixture.fetch)
           ["-w"; "ws"; "-a"; "token"; "-c"; "rwanda"] Fixture.empty_world).
  vm_compute. reflexivity.
Defined.

(** * Further properties of the two scripts *)

(** ** Which files a run can touch *)

Lemma writes_only_ret {A} (allowed : string → Prop) (a : A) :
  writes_only allowed (ret a).
Proof. by intros w p _. Qed.

Lemma writes_only_raise {A} (allowed : string → Prop) (e : exn) :
  writes_only allowed (raise (A := A) e).
Proof. by intros w p _. Qed.

Lemma writes_only_lift {A} (allowed : string → Prop) (r : Result A) :
  writes_only allowed (lift r).
Proof. by intros w p _. Qed.

Lemma writes_only_info (allowed : string → Prop) (msg : string) :
  writes_only allowed (LOGGER_info msg).
Proof. by intros w p _. Qed.

Lemma writes_only_warning (allowed : string → Prop) (msg : string) :
  writes_only allowed (LOGGER_warning msg).
Proof. by intros w p _. Qed.

Lemma writes_only_progress (allowed : string → Prop) (events : list nat) :
  writes_only allowed (report_progress events).
Proof. by intros w p _. Qed.

Lemma writes_only_read (allowed : string → Prop) (path : string) :
  writes_only allowed (read_file path).
Proof. intros w p _. unfold read_file. by destruct (files w !! path). Qed.

Lemma writes_only_assert (allowed : string → Prop) (cond : bool) (msg : string) :
  writes_only allowed (assert cond msg).
Proof. intros w p _. unfold assert. by destruct cond. Qed.

Lemma writes_only_write (allowed : string → Prop) (path text : string) :
  allowed path → writes_only allowed (write_file path text).
Proof.
  intros Hpath w p Hp. unfold write_file. simpl.
  apply lookup_insert_ne. by intros ->.
Qed.

Lemma writes_only_bind {A B} (allowed : string → Prop) (m : Py A) (k : A → Py B) :
  writes_only allowed m → (∀ a, writes_only allowed (k a)) →
  writes_only allowed (bind m k).
Proof.
  intros Hm Hk w p Hp. specialize (Hm w p Hp). unfold bind.
  destruct (m w) as [[a|e] w1]; simpl in Hm; [|exact Hm].
  by rewrite (Hk a w1 p Hp).
Qed.

Lemma writes_only_try {A} (allowed : string → Prop) (m h : Py A) :
  writes_only allowed m → writes_only allowed h →
  writes_only allowed (try_except_FileNotFoundError m h).
Proof.
  intros Hm Hh w p Hp. specialize (Hm w p Hp).
  unfold try_except_FileNotFoundError.
  destruct (m w) as [[a|e] w1]; simpl in Hm; [exact Hm|].
  destruct e; try exact Hm. by rewrite (Hh w1 p Hp).
Qed.

Lemma writes_only_is_file (allowed : string → Prop) (path : string) :
  writes_only allowed (CacheBuilder.data_store_is_file path).
Proof. by intros w p _. Qed.

Lemma writes_only_open_append (allowed : string → Prop) (path : string) :
  allowed path → writes_only allowed (CacheBuilder.data_store_open_append_close path).
Proof.
  intros Hpath w p Hp. unfold CacheBuilder.data_store_open_append_close.
  destruct (files w !! path); [done|].
  by apply (writes_only_write allowed path EmptyString Hpath w p).
Qed.

Lemma writes_only_exists (allowed : string → Prop) (path : string) :
  writes_only allowed (os_path_exists path).
Proof. by intros w p _. Qed.

Lemma writes_only_makedirs (allowed : string → Prop) (path : string) :
  writes_only allowed (os_makedirs path).
Proof. intros w p _. unfold os_makedirs. by destruct (String.eqb path _). Qed.

Lemma writes_only_run `{Runtime} `{Core} (args : CacheBuilder.Args) :
  writes_only
    (λ p, p = os_path_join (CacheBuilder.workspace_directory args) "cellular.csv"
          ∨ p = os_path_join (CacheBuilder.workspace_directory args)
                  ("cellular" ++ CacheBuilder.file_suffix args ++ ".json"))
    (CacheBuilder.run args).
Proof.
  unfold CacheBuilder.run.
  apply writes_only_bind; [apply writes_only_is_file|]. intros present.
  destruct (negb present).
  - apply writes_only_bind; [apply writes_only_warning|]. intros _.
    apply writes_only_bind; [apply writes_only_open_append; by left|]. intros _.
    apply writes_only_ret.
  - unfold CacheBuilder.from_csv.
    apply writes_only_bind.
    { apply writes_only_bind; [apply writes_only_read|]. intros text.
      apply writes_only_lift. }
    intros towers. apply writes_only_bind.
    { apply writes_only_bind; [apply writes_only_read|]. intros text.
      apply writes_only_lift. }
    intros schools. apply writes_only_bind.
    { unfold CacheBuilder.exclude_connected.
      destruct (negb (CacheBuilder.include_connected args)); [|apply writes_only_ret].
      apply writes_only_bind; [apply writes_only_info|]. intros _.
      apply writes_only_ret. }
    intros queries. unfold CacheBuilder.build_cache.
    apply writes_only_bind; [apply writes_only_progress|]. intros _.
    apply writes_only_bind; [apply writes_only_lift|]. intros dists.
    apply writes_only_write. by right.
Qed.

(** X1. Whatever its outcome, a run of the cache builder leaves every file
    other than [cellular.csv] and the cache file of its workspace as it
    was; [schools.csv] in particular is only read. *)
Theorem cache_builder_touches_two_paths_at_most
    `{Runtime} `{Core} (argv : list string) (args : CacheBuilder.Args)
    (w : World) (p : string) :
  CacheBuilder.parse_args argv = Ok args →
  p ≠ os_path_join (CacheBuilder.workspace_directory args) "cellular.csv" →
  p ≠ os_path_join (CacheBuilder.workspace_directory args)
        ("cellular" ++ CacheBuilder.file_suffix args ++ ".json") →
  files (snd (CacheBuilder.main argv w)) !! p = files w !! p.
Proof.
  intros Hargs Hcellular Hcache.
  rewrite (main_parsed argv args w Hargs).
  apply (writes_only_run args). by intros [?|?].
Qed.

Lemma cache_builder_touches_witness :
  files (snd (CacheBuilder.main (H := Fixture.runtime)
                (H0 := DistanceEngine.core Fixture.distance)
                ["-w"; "ws"] Fixture.workspace))
    !! "ws/schools.csv"
  = Some "schools".
Proof.
  apply (cache_builder_touches_two_paths_at_most (H := Fixture.runtime)
           (H0 := DistanceEngine.core Fixture.distance)
           ["-w"; "ws"] (CacheBuilder.mkArgs "ws" false 1000 20 infinity "_cache")
           Fixture.workspace "ws/schools.csv");
    [reflexivity | discriminate | discriminate].
Defined.

(** ** The command line of the cache builder *)

















(** ** The cache builder between its inputs and its cache *)

Lemma run_with_tables `{Runtime} `{Core} (args : CacheBuilder.Args) (w : World)
    (cellular_text schools_text : string)
    (towers : list CellTower) (schools : list GigaSchool) :
  files w !! os_path_join (CacheBuilder.workspace_directory args) "cellular.csv"
    = Some cellular_text →
  CellTowerTable_parse cellular_text = Ok towers →
  files w !! os_path_join (CacheBuilder.workspace_directory args) "schools.csv"
    = Some schools_text →
  GigaSchoolTable_parse schools_text = Ok schools →
  CacheBuilder.run args w
  = bind (CacheBuilder.exclude_connected args schools)
      (λ queries, CacheBuilder.build_cache args queries towers) w.
Proof.
  intros Hcell Htowers Hsch Hschools. unfold CacheBuilder.run.
  rewrite (bind_ok _ _ _ _ _ (is_file_present _ _ _ Hcell)). simpl.
  rewrite (bind_ok _ _ w towers w)
    by (rewrite (from_csv_present _ _ _ _ Hcell); by rewrite Htowers).
  by rewrite (bind_ok _ _ w schools w)
    by (rewrite (from_csv_present _ _ _ _ Hsch); by rewrite Hschools).
Qed.

Lemma exclude_connected_files (args : CacheBuilder.Args)
    (schools : list GigaSchool) (w : World) :
  files (snd (CacheBuilder.exclude_connected args schools w)) = files w.
Proof.
  unfold CacheBuilder.exclude_connected.
  by destruct (negb (CacheBuilder.include_connected args)).
Qed.

(** X5. When the distance engine raises, the cache builder ends with that
    exception and no file of the workspace has changed: no cache is left
    behind, not even an empty one. *)
Theorem engine_failure_leaves_no_cache
    `{Runtime} `{Core} (argv : list string) (args : CacheBuilder.Args) (w w1 : World)
    (cellular_text schools_text : string)
    (towers : list CellTower) (schools queries : list GigaSchool) (e : exn) :
  CacheBuilder.parse_args argv = Ok args →
  files w !! os_path_join (CacheBuilder.workspace_directory args) "cellular.csv"
    = Some cellular_text →
  CellTowerTable_parse cellular_text = Ok towers →
  files w !! os_path_join (CacheBuilder.workspace_directory args) "schools.csv"
    = Some schools_text →
  GigaSchoolTable_parse schools_text = Ok schools →
  CacheBuilder.exclude_connected args schools w = (Ok queries, w1) →
  fst (run_chunks (CacheBuilder.model_of args)
         (schools_to_coordinates queries, towers_to_coordinates towers)
         (CacheBuilder.n_chunks args)) = Raise e →
  fst (CacheBuilder.main argv w) = Raise e
  ∧ files (snd (CacheBuilder.main argv w)) = files w.
Proof.
  intros Hargs Hcell Htowers Hsch Hschools Hqueries Hraise.
  rewrite (main_parsed argv args w Hargs).
  rewrite (run_with_tables args w _ _ towers schools Hcell Htowers Hsch Hschools).
  rewrite (bind_ok _ _ _ _ _ Hqueries).
  pose proof (exclude_connected_files args schools w) as Hfiles.
  rewrite Hqueries in Hfiles. simpl in Hfiles.
  unfold CacheBuilder.build_cache, bind, report_progress, lift.
  rewrite Hraise. simpl. by rewrite Hfiles.
Qed.

Lemma engine_failure_witness :
  fst (CacheBuilder.main (H := Fixture.runtime)
         (H0 := DistanceEngine.core Fixture.distance)
         ["-w"; "ws"; "-nc"; "0"] Fixture.workspace)
  = Raise (ConfigurationError "invalid distance model configuration")
  ∧ files (snd (CacheBuilder.main (H := Fixture.runtime)
                  (H0 := DistanceEngine.core Fixture.distance)
                  ["-w"; "ws"; "-nc"; "0"] Fixture.workspace))
    = files Fixture.workspace.
Proof.
  refine (engine_failure_leaves_no_cache (H := Fixture.runtime)
            (H0 := DistanceEngine.core Fixture.distance)
            ["-w"; "ws"; "-nc"; "0"]
            (CacheBuilder.mkArgs "ws" false 0 20 infinity "_cache")
            Fixture.workspace _ "towers" "schools"
            [Fixture.tower_T1; Fixture.tower_T2]
            [Fixture.school_A; Fixture.school_B; Fixture.school_C]
            [Fixture.school_A; Fixture.school_B]
            (ConfigurationError "invalid distance model configuration")
            _ _ _ _ _ _ _); reflexivity.
Defined.

Lemma run_without_cellular `{Runtime} `{Core} (args : CacheBuilder.Args) (w : World) :
  files w !! os_path_join (CacheBuilder.workspace_directory args) "cellular.csv" = None →
  ∃ w1 : World,
    CacheBuilder.run args w = (Ok tt, w1)
    ∧ files w1
      = <[os_path_join (CacheBuilder.workspace_directory args) "cellular.csv"
          := EmptyString]> (files w).
Proof.
  intros Habsent. unfold CacheBuilder.run.
  rewrite (bind_ok _ _ _ _ _ (is_file_absent _ _ Habsent)). simpl.
  unfold bind, LOGGER_warning, CacheBuilder.data_store_open_append_close,
    write_file, ret. simpl.
  rewrite Habsent. by eexists.
Qed.

(** X6. The empty [cellular.csv] that a run leaves when it finds none is
    what the next run reads as the cell tower table: run again on the same
    command line, the builder no longer warns but hands the empty text to
    the table reader, and ends with the reader's exception when the reader
    rejects it. *)
Theorem next_run_reads_the_empty_file
    `{Runtime} `{Core} (argv : list string) (args : CacheBuilder.Args)
    (w : World) (e : exn) :
  CacheBuilder.parse_args argv = Ok args →
  files w !! os_path_join (CacheBuilder.workspace_directory args) "cellular.csv" = None →
  CellTowerTable_parse EmptyString = Raise e →
  CacheBuilder.main argv (snd (CacheBuilder.main argv w))
  = (Raise e, snd (CacheBuilder.main argv w)).
Proof.
  intros Hargs Habsent Hreject.
  rewrite !(main_parsed argv args _ Hargs).
  destruct (run_without_cellular args w Habsent) as (w1 & -> & Hfiles). simpl.
  assert (files w1 !! os_path_join (CacheBuilder.workspace_directory args) "cellular.csv"
          = Some EmptyString) as Hnow by (rewrite Hfiles; apply lookup_insert_eq).
  unfold CacheBuilder.run.
  rewrite (bind_ok _ _ _ _ _ (is_file_present _ _ _ Hnow)). simpl.
  apply bind_raise. rewrite (from_csv_present _ _ _ _ Hnow). by rewrite Hreject.
Qed.

Lemma next_run_witness :
  CacheBuilder.main (H := Fixture.runtime) (H0 := DistanceEngine.core Fixture.distance)
    ["-w"; "ws"]
    (snd (CacheBuilder.main (H := Fixture.runtime)
            (H0 := DistanceEngine.core Fixture.distance)
            ["-w"; "ws"] Fixture.empty_world))
  = (Raise (ValueError "malformed cell tower table"),
     snd (CacheBuilder.main (H := Fixture.runtime)
            (H0 := DistanceEngine.core Fixture.distance)
            ["-w"; "ws"] Fixture.empty_world)).
Proof.
  apply (next_run_reads_the_empty_file (H := Fixture.runtime)
           (H0 := DistanceEngine.core Fixture.distance)
           ["-w"; "ws"] (CacheBuilder.mkArgs "ws" false 1000 20 infinity "_cache")
           Fixture.empty_world); reflexivity.
Defined.

(** X7. Removing the connected schools keeps the others in the order of the
    table, and removing again from what was kept removes nothing more. *)
Theorem exclude_connected_keeps_order_and_settles
    (args : CacheBuilder.Args) (schools kept : list GigaSchool) (w w1 : World) :
  CacheBuilder.exclude_connected args schools w = (Ok kept, w1) →
  kept `sublist_of` schools
  ∧ fst (CacheBuilder.exclude_connected args kept w1) = Ok kept.
Proof.
  unfold CacheBuilder.exclude_connected.
  destruct (negb (CacheBuilder.include_connected args)).
  - unfold bind, LOGGER_info, ret. simpl. intros [= <- <-]. split.
    + apply sublist_filter.
    + f_equal. by apply list_filter_filter_r.
  - unfold ret. by intros [= <- <-].
Qed.

Lemma exclude_connected_order_witness :
  [Fixture.school_A; Fixture.school_B]
    `sublist_of` [Fixture.school_A; Fixture.school_B; Fixture.school_C]
  ∧ fst (CacheBuilder.exclude_connected
           (CacheBuilder.mkArgs "ws" false 1000 20 infinity "_cache")
           [Fixture.school_A; Fixture.school_B]
           (mkWorld ∅ ∅
              [(INFO, "Removing schools that are already connected from school set")]
              []))
    = Ok [Fixture.school_A; Fixture.school_B].
Proof.
  apply (exclude_connected_keeps_order_and_settles
           (CacheBuilder.mkArgs "ws" false 1000 20 infinity "_cache")
           [Fixture.school_A; Fixture.school_B; Fixture.school_C]
           [Fixture.school_A; Fixture.school_B] Fixture.empty_world).
  reflexivity.
Defined.

(** ** The command line of the fetch script *)

Ltac fetch_store_cases :=
  unfold FetchSchools.store, argument, usage_error, rbind;
  intros; repeat case_match; simplify_eq/=; eauto.

Lemma fetch_store_head `{FetchCollaborators} tok rest ns ns' :
  FetchSchools.store tok rest ns = Ok ns' → ∃ v rest', rest = v :: rest'.
Proof. fetch_store_cases. Qed.

Lemma fetch_store_country `{FetchCollaborators} tok rest ns ns' :
  FetchSchools.store tok rest ns = Ok ns' →
  FetchSchools.ns_country ns' = FetchSchools.ns_country ns
  ∨ ∃ c, FetchSchools.ns_country ns' = Some c ∧ mem c REGISTERED_COUNTRIES = true.
Proof. fetch_store_cases. Qed.


Lemma fetch_consume_country `{FetchCollaborators} (n : nat) :
  ∀ (argv : list string) (ns ns' : FetchSchools.Namespace),
    (length argv ≤ n)%nat →
    FetchSchools.consume argv ns = Ok ns' →
    FetchSchools.ns_country ns' = FetchSchools.ns_country ns
    ∨ ∃ c, FetchSchools.ns_country ns' = Some c ∧ c ∈ REGISTERED_COUNTRIES.
Proof.
  induction n as [|n IH]; intros argv ns ns' Hlen Hconsume.
  - destruct argv; [|simpl in Hlen; lia]. simpl in *. left. by simplify_eq.
  - destruct argv as [|tok rest]; [simpl in *; left; by simplify_eq|].
    cbn [FetchSchools.consume] in Hconsume.
    destruct (mem tok ["-h"; "--help"]); [discriminate|].
    destruct (FetchSchools.store tok rest ns) as [ns1|e] eqn:Hstore; [|discriminate].
    destruct (fetch_store_head _ _ _ _ Hstore) as (v & rest' & ->).
    apply IH in Hconsume as [Hsame | Hset]; [| by right | simpl in Hlen; lia].
    rewrite Hsame.
    destruct (fetch_store_country _ _ _ _ Hstore) as [? | (c & ? & Hc)]; [by left|].
    right. exists c. split; [done | by apply mem_elem_of].
Qed.

(** X8. The country the fetch script works on is always one of the
    registered countries: any other value of [--country] is refused while
    the command line is read. *)
Theorem country_is_registered
    `{FetchCollaborators} (argv : list string) (args : FetchSchools.Args) :
  FetchSchools.parse_args argv = Ok args →
  FetchSchools.country args ∈ REGISTERED_COUNTRIES.
Proof.
  unfold FetchSchools.parse_args. intros Hparse.
  destruct (FetchSchools.consume argv _) as [ns|e] eqn:Hconsume; [|discriminate].
  apply (fetch_consume_country (length argv)) in Hconsume; [|lia].
  simpl in Hparse, Hconsume.
  destruct (FetchSchools.ns_workspace_directory ns); [|discriminate].
  destruct (FetchSchools.ns_api_token ns); [|discriminate].
  destruct (FetchSchools.ns_country ns) as [c|]; [|discriminate].
  simplify_eq. simpl. destruct Hconsume as [? | (c' & ? & ?)]; by simplify_eq.
Qed.

Lemma country_is_registered_witness :
  "brazil" ∈ REGISTERED_COUNTRIES (FetchCollaborators := Fixture.fetch).
Proof.
  apply (country_is_registered (H := Fixture.fetch)
           ["-c"; "brazil"; "-w"; "ws"; "-a"; "token"]
           (FetchSchools.mkArgs "ws" "token" "brazil")).
  reflexivity.
Defined.




(** ** The supplemental table *)

Lemma column_of_key (k : string) (cols : list (string * list Cell)) :
  k ∈ map fst cols → ∃ values, column k cols = Some values.
Proof.
  induction cols as [|[c values] cols IH]; simpl.
  - by intros ?%elem_of_nil.
  - intros Hin. destruct (String.eqb c k) eqn:Hc; [by eexists|].
    apply elem_of_cons in Hin as [-> | Hin]; [|by apply IH].
    by rewrite String.eqb_refl in Hc.
Qed.

(** X10. From a supplemental table that has the five required columns the
    script keeps those five and no other, in a fixed order and under the
    names of the school schema, with their values and the rows as read; the
    files are left alone. *)
Theorem supplemental_keeps_the_five_columns
    `{FetchCollaborators} (args : FetchSchools.Args) (w : World)
    (text : string) (sup : DataFrame) :
  files w !! os_path_join (FetchSchools.workspace_directory args)
               "schools_supplemental.csv" = Some text →
  read_csv_text text = Ok sup →
  (∀ k, k ∈ FetchSchools.required_columns → k ∈ keys sup) →
  ∃ kept : DataFrame,
    FetchSchools.supplemental args w = (Ok kept, w)
    ∧ keys kept
      = ["giga_id"; "has_electricity"; "has_fiber"; "num_students";
         "cell_coverage_type"]
    ∧ index kept = index sup
    ∧ column "giga_id" (columns kept) = column "giga_id_school" (columns sup)
    ∧ column "has_electricity" (columns kept) = column "electricity" (columns sup)
    ∧ column "has_fiber" (columns kept) = column "fiber" (columns sup)
    ∧ column "num_students" (columns kept) = column "num_students" (columns sup)
    ∧ column "cell_coverage_type" (columns kept)
      = column "coverage_type" (columns sup).
Proof.
  intros Hfile Hread Hall.
  assert (forallb (λ k, mem k (keys sup)) FetchSchools.required_columns = true)
    as Hassert.
  { apply forallb_forall. intros k Hk. apply mem_elem_of, Hall.
    by apply list_elem_of_In. }
  destruct (column_of_key "giga_id_school" (columns sup)) as [ids Hids];
    [apply Hall; unfold FetchSchools.required_columns; repeat constructor|].
  destruct (column_of_key "electricity" (columns sup)) as [electricity Helectricity];
    [apply Hall; unfold FetchSchools.required_columns; repeat constructor|].
  destruct (column_of_key "fiber" (columns sup)) as [fiber Hfiber];
    [apply Hall; unfold FetchSchools.required_columns; repeat constructor|].
  destruct (column_of_key "num_students" (columns sup)) as [counts Hcounts];
    [apply Hall; unfold FetchSchools.required_columns; repeat constructor|].
  destruct (column_of_key "coverage_type" (columns sup)) as [coverage Hcoverage];
    [apply Hall; unfold FetchSchools.required_columns; repeat constructor|].
  eexists. split.
  - unfold FetchSchools.supplemental, try_except_FileNotFoundError,
      FetchSchools.pd_read_csv.
    rewrite (bind_ok _ _ w sup w).
    2: { rewrite (bind_ok _ _ _ _ _ (read_file_present _ _ _ Hfile)).
         unfold lift. by rewrite Hread. }
    unfold bind at 1. unfold assert. rewrite Hassert. unfold ret at 1.
    unfold getitem_list, FetchSchools.required_columns. cbn [select].
    rewrite Hids, Helectricity, Hfiber, Hcounts, Hcoverage.
    cbn [rbind]. rewrite lift_bind. reflexivity.
  - rewrite Hids, Helectricity, Hfiber, Hcounts, Hcoverage.
    repeat split; reflexivity.
Qed.

Lemma supplemental_columns_witness :
  ∃ kept : DataFrame,
    FetchSchools.supplemental (H := Survey.fetch)
      (FetchSchools.mkArgs "ws" "token" "rwanda") Survey.workspace
    = (Ok kept, Survey.workspace)
    ∧ keys kept
      = ["giga_id"; "has_electricity"; "has_fiber"; "num_students";
         "cell_coverage_type"]
    ∧ index kept = [CInt 0; CInt 1]
    ∧ column "giga_id" (columns kept) = Some [CStr "b"; CStr "z"]
    ∧ column "has_electricity" (columns kept) = Some [CBool true; CBool false]
    ∧ column "has_fiber" (columns kept) = Some [CBool false; CBool true]
    ∧ column "num_students" (columns kept) = Some [CInt 40; CInt 7]
    ∧ column "cell_coverage_type" (columns kept) = Some [CStr "4G"; CStr "3G"].
Proof.
  refine (supplemental_keeps_the_five_columns (H := Survey.fetch)
            (FetchSchools.mkArgs "ws" "token" "rwanda") Survey.workspace
            "full" Survey.supplemental_table _ _ _).
  - reflexivity.
  - reflexivity.
  - intros k Hk. unfold FetchSchools.required_columns in Hk.
    unfold keys, Survey.supplemental_table. simpl.
    repeat (apply elem_of_cons in Hk as [-> | Hk]; [repeat constructor|]).
    by apply elem_of_nil in Hk.
Defined.

(** ** What the fetch script writes *)

Lemma writes_only_fetch `{FetchCollaborators} (args : FetchSchools.Args) :
  writes_only
    (λ p, p = os_path_join (FetchSchools.workspace_directory args) "schools.csv")
    (LOGGER_info
       ("Fetching up to date schools for country: "
          ++ title (FetchSchools.country args));;
     let* raw_schools :=
       lift (get_schools (FetchSchools.api_token args) (FetchSchools.country args)) in
     let* sup := FetchSchools.supplemental args in
     assert (0 <? length raw_schools)%nat
       "No schools found for country, perhaps there is an issue with the project connect API";;
     let* table := lift (GigaSchoolTable raw_schools) in
     let frame := to_data_frame table in
     let* frame := lift (FetchSchools.transform frame sup) in
     FetchSchools.write_table args frame).
Proof.
  apply writes_only_bind; [apply writes_only_info|]. intros _.
  apply writes_only_bind; [apply writes_only_lift|]. intros raw.
  apply writes_only_bind.
  { unfold FetchSchools.supplemental. apply writes_only_try; [|apply writes_only_ret].
    apply writes_only_bind.
    { unfold FetchSchools.pd_read_csv.
      apply writes_only_bind; [apply writes_only_read|]. intros text.
      apply writes_only_lift. }
    intros sup. apply writes_only_bind; [apply writes_only_assert|]. intros _.
    apply writes_only_bind; [apply writes_only_lift|]. intros kept.
    apply writes_only_ret. }
  intros sup. apply writes_only_bind; [apply writes_only_assert|]. intros _.
  apply writes_only_bind; [apply writes_only_lift|]. intros table.
  cbv zeta. apply writes_only_bind; [apply writes_only_lift|]. intros frame.
  unfold FetchSchools.write_table.
  apply writes_only_bind; [apply writes_only_exists|]. intros present.
  apply writes_only_bind.
  { destruct (negb present); [apply writes_only_makedirs | apply writes_only_ret]. }
  intros _. by apply writes_only_write.
Qed.

(** X11. Whatever its outcome, the fetch script leaves every file other
    than [schools.csv] of its workspace as it was; the supplemental table
    in particular is only read. *)
Theorem fetch_touches_schools_csv_only
    `{FetchCollaborators} (argv : list string) (args : FetchSchools.Args)
    (w : World) (p : string) :
  FetchSchools.parse_args argv = Ok args →
  p ≠ os_path_join (FetchSchools.workspace_directory args) "schools.csv" →
  files (snd (FetchSchools.main argv w)) !! p = files w !! p.
Proof.
  intros Hargs Hp. unfold FetchSchools.main. rewrite lift_bind, Hargs.
  by apply (writes_only_fetch args).
Qed.

Lemma fetch_touches_witness :
  files (snd (FetchSchools.main (H := Survey.fetch)
                ["-w"; "ws"; "-a"; "token"; "-c"; "rwanda"] Survey.workspace))
    !! "ws/schools_supplemental.csv"
  = Some "full".
Proof.
  apply (fetch_touches_schools_csv_only (H := Survey.fetch)
           ["-w"; "ws"; "-a"; "token"; "-c"; "rwanda"]
           (FetchSchools.mkArgs "ws" "token" "rwanda") Survey.workspace
           "ws/schools_supplemental.csv");
    [reflexivity | discriminate].
Defined.

Lemma write_table_exists `{FetchCollaborators}
    (args : FetchSchools.Args) (frame : DataFrame) (w : World) :
  fst (FetchSchools.write_table args frame w) = Ok tt →
  fst (os_path_exists (FetchSchools.workspace_directory args)
         (snd (FetchSchools.write_table args frame w))) = Ok true.
Proof.
  unfold FetchSchools.write_table, bind, os_path_exists, os_makedirs, ret, write_file.
  simpl.
  destruct (bool_decide (FetchSchools.workspace_directory args ∈ dirs w)) eqn:Hdir;
    simpl.
  { intros _. by rewrite Hdir. }
  destruct (bool_decide (is_Some (files w !! FetchSchools.workspace_directory args)))
    eqn:Hfile; simpl.
  { intros _. rewrite Hdir. simpl. f_equal. apply bool_decide_eq_true_2.
    apply bool_decide_eq_true_1 in Hfile. apply lookup_insert_is_Some'. by right. }
  destruct (String.eqb (FetchSchools.workspace_directory args) EmptyString);
    [discriminate|]. simpl.
  intros _. f_equal. apply orb_true_intro. left.
  apply bool_decide_eq_true_2. set_solver.
Qed.

(** X12. After a run of the fetch script that ended normally the workspace
    directory exists: the script creates it when it is missing, before it
    writes the table. *)
Theorem workspace_exists_after_fetch
    `{FetchCollaborators} (argv : list string) (args : FetchSchools.Args)
    (w : World) :
  FetchSchools.parse_args argv = Ok args →
  fst (FetchSchools.main argv w) = Ok tt →
  fst (os_path_exists (FetchSchools.workspace_directory args)
         (snd (FetchSchools.main argv w))) = Ok true.
Proof.
  intros Hargs. rewrite (main_steps argv args w Hargs). cbv zeta.
  destruct (get_schools _ _) as [raw|?]; [|discriminate].
  destruct (fst (FetchSchools.supplemental args (FetchSchools.announced args w)))
    as [sup|?]; [|discriminate].
  destruct (0 <? length raw)%nat; [|discriminate].
  destruct (GigaSchoolTable raw) as [table|?]; [|discriminate].
  destruct (FetchSchools.transform (to_data_frame table) sup) as [out|?];
    [|discriminate].
  apply write_table_exists.
Qed.

Lemma workspace_exists_witness :
  fst (os_path_exists "ws"
         (snd (FetchSchools.main (H := Fixture.fetch)
                 ["-w"; "ws"; "-a"; "token"; "-c"; "rwanda"] Fixture.empty_world)))
  = Ok true.
Proof.
  apply (workspace_exists_after_fetch (H := Fixture.fetch)
           ["-w"; "ws"; "-a"; "token"; "-c"; "rwanda"]
           (FetchSchools.mkArgs "ws" "token" "rwanda") Fixture.empty_world);
    reflexivity.
Defined.

(** ** The transformed table *)

(** The transformation, laid out by its intermediate frames. *)
Lemma transform_inv (frame sup out : DataFrame) :
  FetchSchools.transform frame sup = Ok out →
  ∃ (sup1 frame1 frame2 frame3 : DataFrame) (num_students counts status : list Cell),
    set_index "giga_id" sup = Ok sup1
    ∧ set_index "giga_id" frame = Ok frame1
    ∧ update frame1 sup1 = Ok frame2
    ∧ reset_index frame2 = Ok frame3
    ∧ getitem "num_students" frame3 = Ok num_students
    ∧ apply FetchSchools.students num_students = Ok counts
    ∧ getitem "connectivity_status" (setitem "num_students" counts frame3) = Ok status
    ∧ out = rename [("giga_id", "giga_id_school");
                    ("school_zone", "environment");
                    ("connectivity_status", "connectivity_speed_status")]
              (setitem "connected"
                 (map (λ x, CBool (FetchSchools.is_connected x)) status)
                 (setitem "num_students" counts frame3)).
Proof.
  unfold FetchSchools.transform.
  destruct (set_index "giga_id" sup) as [sup1|?] eqn:Hsup; [|discriminate].
  rewrite rbind_ok.
  destruct (set_index "giga_id" frame) as [frame1|?] eqn:Hframe; [|discriminate].
  rewrite rbind_ok.
  destruct (update frame1 sup1) as [frame2|?] eqn:Hupdate; [|discriminate].
  rewrite rbind_ok.
  destruct (reset_index frame2) as [frame3|?] eqn:Hreset; [|discriminate].
  rewrite rbind_ok.
  destruct (getitem "num_students" frame3) as [num_students|?] eqn:Hstudents;
    [|discriminate].
  rewrite rbind_ok.
  destruct (apply FetchSchools.students num_students) as [counts|?] eqn:Hcounts;
    [|discriminate].
  rewrite rbind_ok. cbv zeta.
  destruct (getitem "connectivity_status" (setitem "num_students" counts frame3))
    as [status|?] eqn:Hstatus; [|discriminate].
  rewrite rbind_ok. intros [= <-].
  exists sup1, frame1, frame2, frame3, num_students, counts, status.
  repeat split; assumption.
Qed.

Lemma column_replace_same name values cols :
  column name (replace_column name values cols) = Some values.
Proof.
  induction cols as [|[c old] cols IH]; simpl.
  - by rewrite String.eqb_refl.
  - destruct (String.eqb c name) eqn:Hc; simpl; by rewrite Hc.
Qed.

Lemma column_replace_other c name values cols :
  c ≠ name → column c (replace_column name values cols) = column c cols.
Proof.
  intros Hc. induction cols as [|[c' old] cols IH]; simpl.
  - apply not_eq_sym, String.eqb_neq in Hc. by rewrite Hc.
  - destruct (String.eqb c' name) eqn:Hname; simpl.
    + apply String.eqb_eq in Hname as ->.
      apply not_eq_sym, String.eqb_neq in Hc. by rewrite Hc.
    + by rewrite IH.
Qed.

Lemma column_drop_other c name cols :
  c ≠ name → column c (drop_column name cols) = column c cols.
Proof.
  intros Hc. induction cols as [|[c' old] cols IH]; simpl; [done|].
  destruct (String.eqb c' name) eqn:Hname; simpl.
  - apply String.eqb_eq in Hname as ->.
    apply not_eq_sym, String.eqb_neq in Hc. by rewrite Hc.
  - by rewrite IH.
Qed.

Lemma column_renamed (mapping : list (string * string)) c cols :
  renamed mapping c = c →
  (∀ d, d ≠ c → renamed mapping d ≠ c) →
  column c (map (λ col, (renamed mapping (fst col), snd col)) cols) = column c cols.
Proof.
  intros Hfixed Hother. induction cols as [|[d old] cols IH]; simpl; [done|].
  destruct (String.eqb d c) eqn:Hd.
  - apply String.eqb_eq in Hd as ->. by rewrite Hfixed, String.eqb_refl.
  - apply String.eqb_neq in Hd. pose proof (Hother d Hd) as Hne.
    apply String.eqb_neq in Hne. by rewrite Hne.
Qed.

Lemma column_none c cols : c ∉ map fst cols → column c cols = None.
Proof.
  induction cols as [|[d old] cols IH]; simpl; [done|].
  intros Hnot. apply not_elem_of_cons in Hnot as [Hne Hnot].
  apply not_eq_sym, String.eqb_neq in Hne. rewrite Hne. by apply IH.
Qed.

Lemma column_update_other (df other : DataFrame) c cols :
  column c (columns other) = None →
  column c (map (update_column df other) cols) = column c cols.
Proof.
  intros Hnone. induction cols as [|[d old] cols IH]; simpl; [done|].
  unfold update_column at 1. simpl.
  destruct (String.eqb d c) eqn:Hd.
  - apply String.eqb_eq in Hd as ->. rewrite Hnone. simpl.
    by rewrite String.eqb_refl.
  - destruct (column d (columns other)); simpl; by rewrite Hd.
Qed.

Lemma school_schema_keeps (c : string) :
  c ≠ "giga_id" → c ≠ "school_zone" → c ≠ "connectivity_status" →
  c ≠ "giga_id_school" → c ≠ "environment" → c ≠ "connectivity_speed_status" →
  renamed [("giga_id", "giga_id_school");
           ("school_zone", "environment");
           ("connectivity_status", "connectivity_speed_status")] c = c
  ∧ ∀ d, d ≠ c →
      renamed [("giga_id", "giga_id_school");
               ("school_zone", "environment");
               ("connectivity_status", "connectivity_speed_status")] d ≠ c.
Proof.
  intros H1 H2 H3 H4 H5 H6. unfold renamed. split.
  - apply not_eq_sym, String.eqb_neq in H1, H2, H3. by rewrite H1, H2, H3.
  - intros d Hd.
    repeat match goal with
           | |- context [String.eqb ?a d] => destruct (String.eqb a d)
           end; congruence.
Qed.

Lemma students_integer (values counts : list Cell) :
  apply FetchSchools.students values = Ok counts →
  Forall2 (λ x c, ∃ n : Z, c = CInt n
                           ∧ (x = CNone → n = 0)
                           ∧ (∀ m, x = CInt m → n = m)) values counts.
Proof.
  revert counts. induction values as [|x values IH]; intros counts; simpl.
  - intros [= <-]. constructor.
  - unfold FetchSchools.students at 1.
    destruct (int _) as [n|?] eqn:Hint; [|discriminate]. simpl.
    destruct (apply FetchSchools.students values) as [rest|?]; [|discriminate].
    simpl. intros [= <-]. constructor; [|by apply IH].
    exists n. split; [reflexivity|]. split.
    + intros ->. simpl in Hint. by simplify_eq.
    + intros m ->. simpl in Hint. by simplify_eq.
Qed.

Lemma students_integers_only (values counts : list Cell) :
  apply FetchSchools.students values = Ok counts →
  Forall (λ c, ∃ n : Z, c = CInt n) counts.
Proof.
  intros Happly. apply students_integer in Happly.
  induction Happly as [|x c values counts (n & -> & _) _ IH]; constructor; eauto.
Qed.

(** A column of the primary table that the supplemental table does not
    have reaches the step after [reset_index] as it was. *)
Lemma primary_column_survives (frame sup sup1 frame1 frame2 frame3 : DataFrame)
    (c : string) :
  set_index "giga_id" sup = Ok sup1 →
  set_index "giga_id" frame = Ok frame1 →
  update frame1 sup1 = Ok frame2 →
  reset_index frame2 = Ok frame3 →
  c ≠ "giga_id" → c ∉ keys sup →
  column c (columns frame3) = column c (columns frame).
Proof.
  intros Hsup Hframe Hupdate Hreset Hc Hnot.
  unfold set_index in Hsup, Hframe.
  destruct (column "giga_id" (columns sup)) as [labels|]; [|discriminate].
  destruct (column "giga_id" (columns frame)) as [ids|]; [|discriminate].
  simplify_eq.
  unfold update in Hupdate. destruct (_ && _); [discriminate|]. simplify_eq.
  unfold reset_index in Hreset.
  change (default "index" (index_name _)) with "giga_id" in Hreset.
  destruct (mem "giga_id" _); [discriminate|]. simplify_eq.
  cbn [columns column].
  apply not_eq_sym, String.eqb_neq in Hc as Hc'. rewrite Hc'.
  rewrite column_update_other.
  - by apply column_drop_other.
  - cbn [columns]. rewrite column_drop_other by done. by apply column_none.
Qed.

(** X13. In a transformed table every student count is an integer. *)
Theorem student_counts_are_integers (frame sup out : DataFrame) :
  FetchSchools.transform frame sup = Ok out →
  ∃ counts : list Cell,
    getitem "num_students" out = Ok counts
    ∧ Forall (λ c, ∃ n : Z, c = CInt n) counts.
Proof.
  intros Hout.
  destruct (transform_inv _ _ _ Hout)
    as (sup1 & frame1 & frame2 & frame3 & before & counts & status
        & _ & _ & _ & _ & _ & Happly & _ & ->).
  exists counts. split; [|by apply (students_integers_only before)].
  unfold getitem, rename, setitem. cbn [columns].
  destruct (school_schema_keeps "num_students") as [Hfixed Hother]; try discriminate.
  rewrite (column_renamed _ _ _ Hfixed Hother).
  rewrite column_replace_other by discriminate.
  by rewrite column_replace_same.
Qed.

Lemma student_counts_witness :
  ∃ counts : list Cell,
    getitem "num_students"
      (mkFrame None [CInt 0; CInt 1; CInt 2]
         [("giga_id_school", [CStr "a"; CStr "b"; CStr "c"]);
          ("num_students", [CInt 120; CInt 0; CInt 35]);
          ("connectivity_speed_status", [CStr "Good"; CStr "No connectivity"; CNone]);
          ("environment", [CStr "rural"; CStr "urban"; CStr "rural"]);
          ("connected", [CBool true; CBool false; CBool false])])
    = Ok counts
    ∧ Forall (λ c, ∃ n : Z, c = CInt n) counts.
Proof.
  apply (student_counts_are_integers Fixture.frame (empty_frame ["giga_id"])).
  reflexivity.
Defined.

(** X14. Where the supplemental table brings no student counts, the counts
    written are those of the primary table, row by row: [None] has become
    0 and an integer is unchanged. *)
Theorem student_counts_from_primary
    (frame sup out : DataFrame) (before : list Cell) :
  FetchSchools.transform frame sup = Ok out →
  "num_students" ∉ keys sup →
  column "num_students" (columns frame) = Some before →
  ∃ counts : list Cell,
    getitem "num_students" out = Ok counts
    ∧ Forall2 (λ x c, ∃ n : Z, c = CInt n
                               ∧ (x = CNone → n = 0)
                               ∧ (∀ m, x = CInt m → n = m)) before counts.
Proof.
  intros Hout Hnot Hbefore.
  destruct (transform_inv _ _ _ Hout)
    as (sup1 & frame1 & frame2 & frame3 & values & counts & status
        & Hsup & Hframe & Hupdate & Hreset & Hvalues & Happly & _ & ->).
  exists counts. split.
  - unfold getitem, rename, setitem. cbn [columns].
    destruct (school_schema_keeps "num_students") as [Hfixed Hother]; try discriminate.
    rewrite (column_renamed _ _ _ Hfixed Hother).
    rewrite column_replace_other by discriminate.
    by rewrite column_replace_same.
  - unfold getitem in Hvalues.
    rewrite (primary_column_survives frame sup sup1 frame1 frame2 frame3
               "num_students" Hsup Hframe Hupdate Hreset) in Hvalues
      by (done || discriminate).
    rewrite Hbefore in Hvalues. simplify_eq. by apply students_integer.
Qed.

Lemma student_counts_from_primary_witness :
  ∃ counts : list Cell,
    getitem "num_students"
      (mkFrame None [CInt 0; CInt 1; CInt 2]
         [("giga_id_school", [CStr "a"; CStr "b"; CStr "c"]);
          ("num_students", [CInt 120; CInt 0; CInt 35]);
          ("connectivity_speed_status", [CStr "Good"; CStr "No connectivity"; CNone]);
          ("environment", [CStr "rural"; CStr "urban"; CStr "rural"]);
          ("connected", [CBool true; CBool false; CBool false])])
    = Ok counts
    ∧ Forall2 (λ x c, ∃ n : Z, c = CInt n
                               ∧ (x = CNone → n = 0)
                               ∧ (∀ m, x = CInt m → n = m))
        [CInt 120; CNone; CFloat 35.5] counts.
Proof.
  refine (student_counts_from_primary Fixture.frame (empty_frame ["giga_id"]) _
            [CInt 120; CNone; CFloat 35.5] _ _ _).
  - reflexivity.
  - unfold keys. simpl. intros Hin. apply list_elem_of_singleton in Hin.
    discriminate.
  - reflexivity.
Defined.

(** X15. The supplemental table cannot change the connected flag: as long
    as it has no connectivity status column, the flag written is computed
    from the connectivity status of the primary table, row by row. *)
Theorem connected_comes_from_primary_status
    (frame sup out : DataFrame) (status : list Cell) :
  FetchSchools.transform frame sup = Ok out →
  "connectivity_status" ∉ keys sup →
  column "connectivity_status" (columns frame) = Some status →
  getitem "connected" out
  = Ok (map (λ x, CBool (FetchSchools.is_connected x)) status).
Proof.
  intros Hout Hnot Hstatus.
  destruct (transform_inv _ _ _ Hout)
    as (sup1 & frame1 & frame2 & frame3 & values & counts & status'
        & Hsup & Hframe & Hupdate & Hreset & _ & _ & Hstatus' & ->).
  unfold getitem, setitem in Hstatus'. cbn [columns] in Hstatus'.
  rewrite column_replace_other in Hstatus' by discriminate.
  rewrite (primary_column_survives frame sup sup1 frame1 frame2 frame3
             "connectivity_status" Hsup Hframe Hupdate Hreset) in Hstatus'
    by (done || discriminate).
  rewrite Hstatus in Hstatus'. simplify_eq.
  unfold getitem, rename, setitem. cbn [columns].
  destruct (school_schema_keeps "connected") as [Hfixed Hother]; try discriminate.
  rewrite (column_renamed _ _ _ Hfixed Hother).
  by rewrite column_replace_same.
Qed.

Lemma connected_from_primary_witness :
  getitem "connected"
    (mkFrame None [CInt 0; CInt 1; CInt 2]
       [("giga_id_school", [CStr "a"; CStr "b"; CStr "c"]);
        ("num_students", [CInt 120; CInt 40; CInt 35]);
        ("connectivity_speed_status", [CStr "Good"; CStr "No connectivity"; CNone]);
        ("environment", [CStr "rural"; CStr "urban"; CStr "rural"]);
        ("connected", [CBool true; CBool false; CBool false])])
  = Ok (map (λ x, CBool (FetchSchools.is_connected x))
          [CStr "Good"; CStr "No connectivity"; CNone]).
Proof.
  refine (connected_comes_from_primary_status Fixture.frame
            (mkFrame None [CInt 0; CInt 1]
               [("giga_id", [CStr "b"; CStr "z"]);
                ("has_electricity", [CBool true; CBool false]);
                ("has_fiber", [CBool false; CBool true]);
                ("num_students", [CInt 40; CInt 7]);
                ("cell_coverage_type", [CStr "4G"; CStr "3G"])])
            _ [CStr "Good"; CStr "No connectivity"; CNone] _ _ _).
  - reflexivity.
  - unfold keys. simpl. intros Hin.
    repeat (apply elem_of_cons in Hin as [Hin | Hin]; [discriminate|]).
    by apply elem_of_nil in Hin.
  - reflexivity.
Defined.

(** X16. The school identifiers go through the transformation untouched:
    the [giga_id] column of the primary table comes out as the first column
    of the transformed table, under the name [giga_id_school], and the
    table has one row per identifier. *)
Theorem school_identifiers_come_first (frame sup out : DataFrame) :
  FetchSchools.transform frame sup = Ok out →
  ∃ (ids : list Cell) (rest : list (string * list Cell)),
    column "giga_id" (columns frame) = Some ids
    ∧ columns out = ("giga_id_school", ids) :: rest
    ∧ length (index out) = length ids.
Proof.
  intros Hout.
  destruct (transform_inv _ _ _ Hout)
    as (sup1 & frame1 & frame2 & frame3 & values & counts & status
        & _ & Hframe & Hupdate & Hreset & _ & _ & _ & ->).
  unfold set_index in Hframe.
  destruct (column "giga_id" (columns frame)) as [ids|]; [|discriminate].
  simplify_eq.
  unfold update in Hupdate. destruct (_ && _); [discriminate|]. simplify_eq.
  unfold reset_index in Hreset.
  change (default "index" (index_name _)) with "giga_id" in Hreset.
  destruct (mem "giga_id" _); [discriminate|]. simplify_eq.
  eexists ids, _. split; [reflexivity|]. split; [reflexivity|].
  cbn [rename setitem index]. by rewrite length_map, length_seq.
Qed.

Lemma school_identifiers_witness :
  ∃ (ids : list Cell) (rest : list (string * list Cell)),
    column "giga_id" (columns Fixture.frame) = Some ids
    ∧ columns
        (mkFrame None [CInt 0; CInt 1; CInt 2]
           [("giga_id_school", [CStr "a"; CStr "b"; CStr "c"]);
            ("num_students", [CInt 120; CInt 0; CInt 35]);
            ("connectivity_speed_status", [CStr "Good"; CStr "No connectivity"; CNone]);
            ("environment", [CStr "rural"; CStr "urban"; CStr "rural"]);
            ("connected", [CBool true; CBool false; CBool false])])
      = ("giga_id_school", ids) :: rest
    ∧ length [CInt 0; CInt 1; CInt 2] = length ids.
Proof.
  apply (school_identifiers_come_first Fixture.frame (empty_frame ["giga_id"])).
  reflexivity.
Defined.

Lemma apply_students_nan (values : list Cell) (x : float) :
  CFloat x ∈ values → Prim2SF x = S754_nan →
  ∃ e : exn, apply FetchSchools.students values = Raise e.
Proof.
  intros Hin Hnan. induction values as [|y values IH]; [by apply elem_of_nil in Hin|].
  simpl. apply elem_of_cons in Hin as [<- | Hin].
  - unfold FetchSchools.students, int, int_of_float. rewrite Hnan. simpl. eauto.
  - destruct (FetchSchools.students y) as [c|e]; simpl; [|eauto].
    destruct (IH Hin) as [e ->]. simpl. eauto.
Qed.

Lemma transform_primary_nan (frame : DataFrame) (values : list Cell) (x : float) :
  column "num_students" (columns frame) = Some values →
  CFloat x ∈ values → Prim2SF x = S754_nan →
  ∃ e : exn, FetchSchools.transform_primary frame = Raise e.
Proof.
  intros Hvalues Hin Hnan. unfold FetchSchools.transform_primary.
  unfold set_index.
  destruct (column "giga_id" (columns frame)) as [ids|]; [|simpl; eauto].
  rewrite rbind_ok. unfold reset_index.
  change (default "index" (index_name _)) with "giga_id".
  destruct (mem "giga_id" _); [simpl; eauto|].
  rewrite rbind_ok. unfold getitem. cbn [columns column].
  change (String.eqb "giga_id" "num_students") with false. cbv iota.
  rewrite column_drop_other by discriminate. rewrite Hvalues, rbind_ok.
  destruct (apply_students_nan values x Hin Hnan) as [e ->]. simpl. eauto.
Qed.

(** X17. A NaN among the student counts of the primary table stops the
    fetch script when there is no supplemental table to replace it: the
    conversion to an integer guards against [None] only, the run ends with
    an exception and nothing is written. *)
Theorem nan_student_count_aborts
    `{FetchCollaborators} (argv : list string) (args : FetchSchools.Args)
    (w : World) (raw_schools : list RawSchool) (table : SchoolTable)
    (values : list Cell) (x : float) :
  FetchSchools.parse_args argv = Ok args →
  files w !! os_path_join (FetchSchools.workspace_directory args)
               "schools_supplemental.csv" = None →
  get_schools (FetchSchools.api_token args) (FetchSchools.country args)
    = Ok raw_schools →
  GigaSchoolTable raw_schools = Ok table →
  column "num_students" (columns (to_data_frame table)) = Some values →
  CFloat x ∈ values → Prim2SF x = S754_nan →
  ∃ e : exn,
    fst (FetchSchools.main argv w) = Raise e
    ∧ files (snd (FetchSchools.main argv w)) = files w
    ∧ dirs (snd (FetchSchools.main argv w)) = dirs w.
Proof.
  intros Hargs Habsent Hraw Htable Hvalues Hin Hnan.
  rewrite (main_steps argv args w Hargs), Hraw. cbv zeta.
  rewrite (supplemental_absent args (FetchSchools.announced args w) Habsent).
  cbn [fst].
  destruct (0 <? length raw_schools)%nat; [|eexists; repeat split; reflexivity].
  rewrite Htable, transform_empty_supplemental.
  destruct (transform_primary_nan _ values x Hvalues Hin Hnan) as [e ->].
  eexists. repeat split; reflexivity.
Qed.

Lemma nan_student_count_witness :
  ∃ e : exn,
    fst (FetchSchools.main (H := Survey.fetch)
           ["-w"; "ws"; "-a"; "token"; "-c"; "brazil"] Fixture.empty_world) = Raise e
    ∧ files (snd (FetchSchools.main (H := Survey.fetch)
                    ["-w"; "ws"; "-a"; "token"; "-c"; "brazil"] Fixture.empty_world))
      = files Fixture.empty_world
    ∧ dirs (snd (FetchSchools.main (H := Survey.fetch)
                   ["-w"; "ws"; "-a"; "token"; "-c"; "brazil"] Fixture.empty_world))
      = dirs Fixture.empty_world.
Proof.
  refine (nan_student_count_aborts (H := Survey.fetch)
            ["-w"; "ws"; "-a"; "token"; "-c"; "brazil"]
            (FetchSchools.mkArgs "ws" "token" "brazil") Fixture.empty_world
            ["x"] ["x"] [CInt 10; CFloat nan] nan _ _ _ _ _ _ _);
    try reflexivity.
  repeat constructor.
Defined.

(** X18. An empty workspace path cannot work: the script fetches and
    transforms as usual, then fails to create the directory, so the run
    ends with an exception and nothing is written. *)
Theorem empty_workspace_path_aborts
    `{FetchCollaborators} (argv : list string) (args : FetchSchools.Args)
    (w : World) :
  FetchSchools.parse_args argv = Ok args →
  FetchSchools.workspace_directory args = EmptyString →
  EmptyString ∉ dirs w → files w !! EmptyString = None →
  ∃ e : exn,
    fst (FetchSchools.main argv w) = Raise e
    ∧ files (snd (FetchSchools.main argv w)) = files w
    ∧ dirs (snd (FetchSchools.main argv w)) = dirs w.
Proof.
  intros Hargs Hempty Hdir Hfile.
  rewrite (main_steps argv args w Hargs). cbv zeta.
  destruct (get_schools _ _) as [raw|?]; [|eexists; repeat split; reflexivity].
  destruct (fst (FetchSchools.supplemental args (FetchSchools.announced args w)))
    as [sup|?]; [|eexists; repeat split; reflexivity].
  destruct (0 <? length raw)%nat; [|eexists; repeat split; reflexivity].
  destruct (GigaSchoolTable raw) as [table|?]; [|eexists; repeat split; reflexivity].
  destruct (FetchSchools.transform (to_data_frame table) sup) as [out|?];
    [|eexists; repeat split; reflexivity].
  unfold FetchSchools.write_table, bind, os_path_exists, os_makedirs.
  rewrite Hempty. cbn [FetchSchools.announced files dirs].
  rewrite (bool_decide_eq_false_2 _ Hdir).
  rewrite bool_decide_eq_false_2 by (rewrite Hfile; by intros [? ?]).
  cbn. eexists. repeat split; reflexivity.
Qed.

Lemma empty_workspace_path_witness :
  ∃ e : exn,
    fst (FetchSchools.main (H := Fixture.fetch)
           ["-w"; EmptyString; "-a"; "token"; "-c"; "rwanda"] Fixture.empty_world)
    = Raise e
    ∧ files (snd (FetchSchools.main (H := Fixture.fetch)
                    ["-w"; EmptyString; "-a"; "token"; "-c"; "rwanda"]
                    Fixture.empty_world))
      = files Fixture.empty_world
    ∧ dirs (snd (FetchSchools.main (H := Fixture.fetch)
                   ["-w"; EmptyString; "-a"; "token"; "-c"; "rwanda"]
                   Fixture.empty_world))
      = dirs Fixture.empty_world.
Proof.
  refine (empty_workspace_path_aborts (H := Fixture.fetch)
            ["-w"; EmptyString; "-a"; "token"; "-c"; "rwanda"]
            (FetchSchools.mkArgs EmptyString "token" "rwanda")
            Fixture.empty_world _ _ _ _); try reflexivity.
  unfold Fixture.empty_world. simpl. apply not_elem_of_empty.
Defined.

(** ** The supplemental update *)



